(** * Profile record extraction: grants and publications widgets

    A shallow embedding of the two browser widgets of the repository,
    [ExpertResearchGrants] (UiTM Expert research grants) and
    [ScholarPublications] (Google Scholar publications), and the properties
    of their extraction heuristic.

    Conventions of the embedding.
    - A JavaScript string is a sequence of code units.  The development
      covers texts whose code units lie in U+0000..U+00FF, one [ascii] per
      code unit, so [String.length] is the JavaScript [length].
    - The browser is an oracle: [fetch], [encodeURIComponent] and the HTML
      parser are fields of a [Host]; a parsed document and its elements
      answer [querySelectorAll] by a function from selector text to the
      matched elements in document order.
    - Methods of the two classes run in a small monad that threads the
      instance fields and a completion (normal or thrown); fields written
      before a [throw] stay written, as in JavaScript.
    - Console logging is left out.  The methods that render into the modal
      are modelled apart, in front of a text area that records the writes
      to its [innerHTML]; awaited calls run to completion, one event at a
      time. *)

From Stdlib Require Import String Ascii List Bool Arith Lia NArith DecimalString.
Import ListNotations.
Open Scope list_scope.
Open Scope string_scope.

(** ** JavaScript string built-ins *)

Module Js.

(** Code units that [String.prototype.trim] strips, within U+0000..U+00FF:
    TAB, LF, VT, FF, CR, SPACE and NBSP. *)
Definition isWhiteSpace (c : ascii) : bool :=
  let n := N_of_ascii c in
  ((9 <=? n) && (n <=? 13) || (n =? 32) || (n =? 160))%N.

(** [toLowerCase] on one code unit: A-Z, and the Latin-1 capitals
    U+00C0..U+00DE except the multiplication sign U+00D7. *)
Definition toLowerCaseUnit (c : ascii) : ascii :=
  let n := N_of_ascii c in
  if ((65 <=? n) && (n <=? 90)
      || (192 <=? n) && (n <=? 222) && negb (n =? 215))%N
  then ascii_of_N (n + 32) else c.

Fixpoint toLowerCase (s : string) : string :=
  match s with
  | EmptyString => EmptyString
  | String c s' => String (toLowerCaseUnit c) (toLowerCase s')
  end.

Fixpoint trimStart (s : string) : string :=
  match s with
  | EmptyString => EmptyString
  | String c s' => if isWhiteSpace c then trimStart s' else s
  end.

Fixpoint trimEnd (s : string) : string :=
  match s with
  | EmptyString => EmptyString
  | String c s' =>
      match trimEnd s' with
      | EmptyString => if isWhiteSpace c then EmptyString else String c EmptyString
      | r => String c r
      end
  end.

Definition trim (s : string) : string := trimEnd (trimStart s).

(** [s.startsWith(t)], the test [includes] repeats at every position. *)
Fixpoint startsWith (s t : string) {struct t} : bool :=
  match t, s with
  | EmptyString, _ => true
  | String _ _, EmptyString => false
  | String b t', String a s' => Ascii.eqb a b && startsWith s' t'
  end.

(** [s.includes(t)]. *)
Fixpoint includes (s t : string) : bool :=
  startsWith s t
  || match s with
     | EmptyString => false
     | String _ s' => includes s' t
     end.

(** [s.substring(a, b)]: the arguments are swapped when [a > b] and the
    result stops at the end of [s]. *)
Definition substring (s : string) (a b : nat) : string :=
  String.substring (Nat.min a b) (Nat.max a b - Nat.min a b) s.

Definition newline : ascii := ascii_of_nat 10.

(** The one-character string holding a line feed. *)
Definition LF : string := String newline EmptyString.

(** The one-character string holding a double quote. *)
Definition quote : string := String (ascii_of_nat 34) EmptyString.

(** [s.split('\n')]: never empty, [""] splits to [[""]]. *)
Fixpoint split_newline (s : string) : list string :=
  match s with
  | EmptyString => [EmptyString]
  | String c s' =>
      if Ascii.eqb c newline then EmptyString :: split_newline s'
      else match split_newline s' with
           | l :: ls => String c l :: ls
           | [] => [String c EmptyString]
           end
  end.

(** [xs.some(p)]. *)
Definition some {A : Type} (p : A -> bool) (xs : list A) : bool := existsb p xs.

(** Truthiness of a string: only [""] is falsy. *)
Definition truthy (s : string) : bool :=
  match s with EmptyString => false | _ => true end.

End Js.

(** ** Completions and the method monad *)

(** How a JavaScript computation ends: normally with a value, or by
    throwing.  The thrown value is kept as its message. *)
Inductive completion (A : Type) : Type :=
| Normal (a : A)
| Throw (e : string).
Arguments Normal {A} a.
Arguments Throw {A} e.

(** A method body over the instance fields [S]. *)
Definition M (S A : Type) : Type := S -> completion A * S.

Definition ret {S A : Type} (a : A) : M S A := fun st => (Normal a, st).

Definition bind {S A B : Type} (m : M S A) (k : A -> M S B) : M S B :=
  fun st =>
    match m st with
    | (Normal a, st') => k a st'
    | (Throw e, st') => (Throw e, st')
    end.

Definition throw {S A : Type} (e : string) : M S A := fun st => (Throw e, st).

(** A host call (or an awaited promise) inside a method. *)
Definition lift {S A : Type} (c : completion A) : M S A := fun st => (c, st).

(** [try { body } catch (error) { handler }] *)
Definition tryCatch {S A : Type} (body : M S A) (handler : string -> M S A) : M S A :=
  fun st =>
    match body st with
    | (Normal a, st') => (Normal a, st')
    | (Throw e, st') => handler e st'
    end.

(** [try { body } finally { final }] *)
Definition tryFinally {S A : Type} (body : M S A) (final : M S unit) : M S A :=
  fun st =>
    match body st with
    | (c, st') =>
        match final st' with
        | (Normal _, st'') => (c, st'')
        | (Throw e, st'') => (Throw e, st'')
        end
    end.

Declare Scope js_scope.
Delimit Scope js_scope with js.
Notation "x <- m ;; k" := (bind m (fun x => k))
  (at level 61, m at next level, right associativity) : js_scope.
Notation "m ;; k" := (bind m (fun _ => k))
  (at level 61, right associativity) : js_scope.
Open Scope js_scope.

(** [xs.forEach(f)] *)
Fixpoint forEach {S A : Type} (xs : list A) (f : A -> M S unit) : M S unit :=
  match xs with
  | [] => ret tt
  | x :: xs' => f x ;; forEach xs' f
  end.

(** [xs.map((x, index) => f x index)], counting from [i]. *)
Fixpoint mapIndexed {A B : Type} (f : A -> nat -> B) (xs : list A) (i : nat) : list B :=
  match xs with
  | [] => []
  | x :: xs' => f x i :: mapIndexed f xs' (S i)
  end.

(** The fields an instance holds once a method has run. *)
Definition fieldsAfter {S A : Type} (m : M S A) (st : S) : S := snd (m st).

(** ** The browser *)

Module Browser.

(** An element of a parsed document: its [textContent], its [href]
    (absent on elements that are not links) and its answer to
    [querySelectorAll]. *)
#[local] Set Warnings "-register-all".
Inductive Element : Type :=
| mkElement (text : string) (link : option string)
            (matches : string -> list Element).

Definition textContent (e : Element) : string :=
  match e with mkElement t _ _ => t end.

Definition href (e : Element) : option string :=
  match e with mkElement _ h _ => h end.

Definition querySelectorAll (e : Element) (selector : string) : list Element :=
  match e with mkElement _ _ q => q selector end.

(** [querySelector] is the first match, or null. *)
Definition querySelector (e : Element) (selector : string) : option Element :=
  hd_error (querySelectorAll e selector).

(** A parsed document, by its answer to [querySelectorAll]. *)
Definition Document : Type := string -> list Element.

(** The body of a response: [ok], [status], and the outcome of [text()]. *)
Record Response : Type := mkResponse {
  ok : bool;
  status : nat;
  text : completion string
}.

Record Host : Type := mkHost {
  fetch : string -> completion Response;
  encodeURIComponent : string -> string;
  (** [new DOMParser().parseFromString(html, 'text/html')] *)
  parseFromString : string -> completion Document
}.

(** The document the [try] block of a fetch method reaches when nothing
    throws on the way: the request resolves, the response is [ok], its
    [text()] resolves and the parser returns. *)
Definition fetchedDocument (host : Host) (url : string) : option Document :=
  match fetch host url with
  | Normal response =>
      if ok response
      then match text response with
           | Normal html =>
               match parseFromString host html with
               | Normal doc => Some doc
               | Throw _ => None
               end
           | Throw _ => None
           end
      else None
  | Throw _ => None
  end.

(** A number in a template literal. *)
Definition numberToString (n : nat) : string :=
  NilEmpty.string_of_uint (Nat.to_uint n).

End Browser.

(** ** The research grants widget ([ExpertResearchGrants]) *)

Module Grants.
Import Browser.

Record Grant : Type := mkGrant {
  id : nat;
  title : string;
  details : string;
  type : string;
  status : string
}.

(** The fields of an [ExpertResearchGrants] instance. *)
Record State : Type := mkState {
  expertUrl : string;
  researchGrants : list Grant;
  isLoading : bool
}.

Definition constructor : State :=
  {| expertUrl := "https://expert.uitm.edu.my/V2/page-detail.php?id=kpS0wAftZa/wMbt+axFm2QraURSC5Nx3w40ZdmhLHQA=";
     researchGrants := [];
     isLoading := false |}.

Definition getExpertUrl : M State string :=
  fun st => (Normal (expertUrl st), st).

Definition getResearchGrants : M State (list Grant) :=
  fun st => (Normal (researchGrants st), st).

Definition setResearchGrants (grants : list Grant) : M State unit :=
  fun st => (Normal tt, {| expertUrl := expertUrl st;
                           researchGrants := grants;
                           isLoading := isLoading st |}).

Definition setIsLoading (b : bool) : M State unit :=
  fun st => (Normal tt, {| expertUrl := expertUrl st;
                           researchGrants := researchGrants st;
                           isLoading := b |}).

Definition researchKeywords : list string :=
  [ "grant"; "research"; "project"; "funding"; "FRGS"; "RACER"; "LESTARI";
    "KPM"; "UiTM"; "fundamental"; "special"; "autonomous"; "anomaly";
    "detection"; "streaming"; "data"; "e-commerce"; "rural"; "products";
    "commercialization"; "autism"; "journey"; "directory"; "repository";
    "smart"; "urban"; "farming"; "iot"; "downtime"; "analysis"; "data centre";
    "high availability"; "software"; "application"; "services"; "fog devices";
    "radar"; "reflectivity"; "images"; "convective"; "stratiform"; "tropical";
    "rainfall"; "estimates" ].

Definition isResearchGrantText (text : string) : bool :=
  Js.some (fun keyword =>
             Js.includes (Js.toLowerCase text) (Js.toLowerCase keyword))
          researchKeywords.

(** [text.split('\n').filter(line => line.trim().length > 0)], the
    [lines] of [extractTitle]. *)
Definition titleLines (text : string) : list string :=
  filter (fun line => (0 <? String.length (Js.trim line))%nat)
         (Js.split_newline text).

Definition extractTitle (text : string) : string :=
  let lines := titleLines text in
  match lines with
  | line0 :: _ =>
      Js.substring (Js.trim line0) 0 100
      ++ (if (100 <? String.length line0)%nat then "..." else "")
  | [] =>
      Js.substring text 0 100
      ++ (if (100 <? String.length text)%nat then "..." else "")
  end.

Definition extractType (text : string) : string :=
  if Js.includes (Js.toLowerCase text) "frgs" then "FRGS"
  else if Js.includes (Js.toLowerCase text) "racer" then "RACER"
  else if Js.includes (Js.toLowerCase text) "lestari" then "LESTARI"
  else if Js.includes (Js.toLowerCase text) "kpm" then "KPM"
  else if Js.includes (Js.toLowerCase text) "international" then "International"
  else if Js.includes (Js.toLowerCase text) "national" then "National"
  else "Research Grant".

Definition extractStatus (text : string) : string :=
  if Js.includes (Js.toLowerCase text) "completed" then "Completed"
  else if Js.includes (Js.toLowerCase text) "active"
          || Js.includes (Js.toLowerCase text) "ongoing" then "Active"
  else if Js.includes (Js.toLowerCase text) "2020"
          || Js.includes (Js.toLowerCase text) "2021"
          || Js.includes (Js.toLowerCase text) "2022"
          || Js.includes (Js.toLowerCase text) "2023"
          || Js.includes (Js.toLowerCase text) "2024"
          || Js.includes (Js.toLowerCase text) "2025" then "Active"
  else "Unknown".

Definition fallbackResearchGrants : list Grant :=
  [ {| id := 1;
       title := "Autonomous Anomaly Detection in Streaming Data";
       details := "KPM, Autonomous Anomaly Detection in Streaming Data, (Ref: RACER/1/2019/ICT02/UITM//4), Role: Team Member.";
       type := "RACER";
       status := "Completed" |};
    {| id := 2;
       title := "Web Based E Commerce System For Rural Products Commercialization In Pulau Tuba Langkawi";
       details := "UiTM LESTARI SDG@UiTM Grant, Web Based E Commerce System For Rural Products Commercialization In Pulau Tuba Langkawi, 600-RMC/LESTARI SDG-T 5/3 (142/2019), Role: Team Member.";
       type := "LESTARI";
       status := "Completed" |};
    {| id := 3;
       title := "AUTISM JOURNEY DIRECTORY & DATA REPOSITORY SYSTEM";
       details := "NASOM, AUTISM JOURNEY DIRECTORY & DATA REPOSITORY SYSTEM, Role: Team Member.";
       type := "NASOM";
       status := "Completed" |};
    {| id := 4;
       title := "Portable Iot-based Smart Urban Farming: Technology Use Case Of Uitm And Unikom Bandung";
       details := "Title : Portable Iot-based Smart Urban Farming: Technology Use Case Of Uitm And Unikom Bandung. Dr. Muhammad Izzad Bin Ramli, Profesor Dr Nursuriati Binti Jamil, Ts. Muhammad Azizi Bin Mohd Ariffin, 2021 - 2022, Other Grants, Project Member, RM 5,000.00";
       type := "Other Grants";
       status := "Completed" |};
    {| id := 5;
       title := "Downtime Analysis For Uitm Data Centre";
       details := "Title : Downtime Analysis For Uitm Data Centre. Profesor Dr Jasni Binti Mohamad Zain, Profesor Madya Dr Kamarularifin Bin Abd Jalil, Ts. Muhammad Azizi Bin Mohd Ariffin, 2020 - 2023, Special Research Grant (GPK), Project Member, RM 20,000.00.";
       type := "GPK";
       status := "Completed" |};
    {| id := 6;
       title := "A New Technique To Ensure High Availability Of Software Application Services By Utilizing Fog Devices Resource Capabilities";
       details := "Title : A New Technique To Ensure High Availability Of Software Application Services By Utilizing Fog Devices Resource Capabilities. Profesor Dr Jasni Binti Mohamad Zain, Luhur Bayuaji, Norkhushaini Bt Awang, Profesor Madya Dr Kamarularifin Bin Abd Jalil, Ts. Muhammad Azizi Bin Mohd Ariffin, 2021 - 2024, Fundamental Research Grant Scheme (FRGS), Project Member, RM 105,300.00";
       type := "FRGS";
       status := "Active" |};
    {| id := 7;
       title := "Coupled Hybrid Feature Extraction And Classification Of Radar Reflectivity Images For Convective-stratiform Tropical Rainfall Estimates";
       details := "Title : Coupled Hybrid Feature Extraction And Classification Of Radar Reflectivity Images For Convective-stratiform Tropical Rainfall Estimates. Profesor Ts. Dr. Wardah Binti Tahir, Profesor Madya Zaidah Binti Ibrahim, Profesor Madya Ir.ts.dr Jazuri Bin Abdullah, Ir. Dr. Suzana Binti Ramli, Ts. Muhammad Azizi Bin Mohd Ariffin, 2021 - 2024, Fundamental Research Grant Scheme (FRGS), Project Member, RM 137,500.00";
       type := "FRGS";
       status := "Active" |} ].

Definition loadFallbackResearchGrants : M State unit :=
  setResearchGrants fallbackResearchGrants.

Definition possibleSelectors : list string :=
  [ ".research-item"; ".grant-item"; "table tr"; ".list-item";
    ".research-list li" ].

(** The callback of [elements.forEach] in [parseResearchGrants]. *)
Definition visitElement (element : Element) : M State unit :=
  let text := Js.trim (textContent element) in
  if Js.truthy text && (10 <? String.length text)%nat && isResearchGrantText text
  then
    grants <- getResearchGrants ;;
    setResearchGrants
      (grants ++ [ {| id := List.length grants + 1;
                      title := extractTitle text;
                      details := text;
                      type := extractType text;
                      status := extractStatus text |} ])%list
  else ret tt.

(** The [for (const selector of possibleSelectors)] loop, left by [break]
    at the first selector with a match. *)
Fixpoint scanSelectors (doc : Document) (selectors : list string) : M State unit :=
  match selectors with
  | [] => ret tt
  | selector :: rest =>
      let elements := doc selector in
      if (0 <? List.length elements)%nat
      then forEach elements visitElement
      else scanSelectors doc rest
  end.

(** *** Vocabulary of the statements *)

(** The text [visitElement] looks at. *)
Definition candidateText (element : Element) : string :=
  Js.trim (textContent element).

(** The test of [visitElement]. *)
Definition survives (text : string) : bool :=
  Js.truthy text && (10 <? String.length text)%nat && isResearchGrantText text.

(** The record [visitElement] pushes for [text] when it is given id [n]. *)
Definition grantOf (n : nat) (text : string) : Grant :=
  {| id := n;
     title := extractTitle text;
     details := text;
     type := extractType text;
     status := extractStatus text |}.

(** The surviving texts of an element list, in element order. *)
Definition keptTexts (elements : list Element) : list string :=
  filter survives (map candidateText elements).

(** The records of the surviving elements, numbered from [start + 1]. *)
Definition liveGrantsFrom (start : nat) (elements : list Element) : list Grant :=
  mapIndexed (fun text i => grantOf (i + 1) text) (keptTexts elements) start.

Definition liveGrants (elements : list Element) : list Grant :=
  liveGrantsFrom 0 elements.

(** The element set [scanSelectors] visits: that of the first selector
    with a match, empty when no selector has one. *)
Fixpoint matchedElements (doc : Document) (selectors : list string) : list Element :=
  match selectors with
  | [] => []
  | selector :: rest =>
      if (0 <? List.length (doc selector))%nat
      then doc selector
      else matchedElements doc rest
  end.

(** What [parseResearchGrants] leaves in [researchGrants] for a parsed
    document: the live records, or the fallback when there is none. *)
Definition grantsOfDocument (doc : Document) : list Grant :=
  match liveGrants (matchedElements doc possibleSelectors) with
  | [] => fallbackResearchGrants
  | live => live
  end.

(** The years [extractStatus] reads as a sign of activity. *)
Definition recentYears : list string :=
  [ "2020"; "2021"; "2022"; "2023"; "2024"; "2025" ].

Section WithHost.
Variable host : Host.

(** The address [fetchResearchGrants] requests. *)
Definition requestUrl (st : State) : string :=
  "https://api.allorigins.win/raw?url=" ++ encodeURIComponent host (expertUrl st).

Definition parseResearchGrants (html : string) : M State unit :=
  doc <- lift (parseFromString host html) ;;
  let researchElements := doc ".research-item, .grant-item, tr" in
  setResearchGrants [] ;;
  scanSelectors doc possibleSelectors ;;
  grants <- getResearchGrants ;;
  if (List.length grants =? 0)%nat
  then loadFallbackResearchGrants
  else ret tt.

Definition fetchResearchGrants : M State unit :=
  setIsLoading true ;;
  tryFinally
    (tryCatch
       (let proxyUrl := "https://api.allorigins.win/raw?url=" in
        url <- getExpertUrl ;;
        response <- lift (fetch host (proxyUrl ++ encodeURIComponent host url)) ;;
        (if negb (ok response)
         then throw ("HTTP error! status: " ++ numberToString (Browser.status response))
         else ret tt) ;;
        html <- lift (text response) ;;
        parseResearchGrants html)
       (fun error => loadFallbackResearchGrants))
    (setIsLoading false).

End WithHost.

End Grants.

(** ** The publications widget ([ScholarPublications]) *)

Module Publications.
Import Browser.

(** [link] is the title element's [href], which is undefined ([None]) on
    an element that is not a link. *)
Record Publication : Type := mkPublication {
  id : nat;
  title : string;
  authors : string;
  venue : string;
  year : string;
  citations : string;
  link : option string
}.

(** The fields of a [ScholarPublications] instance. *)
Record State : Type := mkState {
  scholarUrl : string;
  publications : list Publication;
  isLoading : bool
}.

Definition constructor : State :=
  {| scholarUrl := "https://scholar.google.com/citations?user=EygguTUAAAAJ&hl=en";
     publications := [];
     isLoading := false |}.

Definition getScholarUrl : M State string :=
  fun st => (Normal (scholarUrl st), st).

Definition getPublications : M State (list Publication) :=
  fun st => (Normal (publications st), st).

Definition setPublications (pubs : list Publication) : M State unit :=
  fun st => (Normal tt, {| scholarUrl := scholarUrl st;
                           publications := pubs;
                           isLoading := isLoading st |}).

Definition setIsLoading (b : bool) : M State unit :=
  fun st => (Normal tt, {| scholarUrl := scholarUrl st;
                           publications := publications st;
                           isLoading := b |}).

Definition selectors : list string :=
  [ ".gsc_a_tr"; ".gsc_a_t"; ".gsc_a_at"; "tr[data-rid]"; ".gsc_a_tc" ].

(** [a || b] on element-or-null values. *)
Definition orElse {A : Type} (a b : option A) : option A :=
  match a with Some _ => a | None => b end.

(** The [for (const selector of selectors)] loop: [publicationElements]
    holds the last assigned match list and the loop is left by [break]
    at the first one that is not empty. *)
Fixpoint findPublicationElements (doc : Document) (sels : list string)
         (publicationElements : list Element) : list Element :=
  match sels with
  | [] => publicationElements
  | selector :: rest =>
      let publicationElements := doc selector in
      if (0 <? List.length publicationElements)%nat
      then publicationElements
      else findPublicationElements doc rest publicationElements
  end.

(** The title before truncation. *)
Definition rawTitle (element : Element) (titleElement : option Element) : string :=
  match titleElement with
  | Some t => Js.trim (textContent t)
  | None =>
      match option_map Js.trim (nth_error (Js.split_newline (textContent element)) 0) with
      | Some s => if Js.truthy s then s else "Unknown Title"
      | None => "Unknown Title"
      end
  end.

Definition truncateTitle (title : string) : string :=
  if (150 <? String.length title)%nat
  then Js.substring title 0 150 ++ "..."
  else title.

(** The [titleElement] of the [map] callback. *)
Definition titleElementOf (element : Element) : option Element :=
  orElse (querySelector element ".gsc_a_at")
         (orElse (querySelector element
                    ("a[href*=" ++ Js.quote ++ "scholar" ++ Js.quote ++ "]"))
                 (querySelector element ".gsc_a_t a")).

(** The callback of [Array.from(publicationElements).map]. *)
Definition toPublication (element : Element) (index : nat) : Publication :=
  let titleElement := titleElementOf element in
  let authorsElement :=
    orElse (querySelector element ".gs_gray")
           (querySelector element ".gsc_a_at + .gs_gray") in
  let venueElement :=
    orElse (querySelector element ".gs_gray:last-child")
           (nth_error (querySelectorAll element ".gs_gray") 1) in
  let yearElement :=
    orElse (querySelector element ".gsc_a_y")
           (querySelector element ".gsc_a_yc") in
  let citationsElement :=
    orElse (querySelector element ".gsc_a_c")
           (querySelector element ".gsc_a_c a") in
  let title := rawTitle element titleElement in
  let authors :=
    match authorsElement with
    | Some e => Js.trim (textContent e) | None => "Unknown Authors" end in
  let venue :=
    match venueElement with
    | Some e => Js.trim (textContent e) | None => "Unknown Venue" end in
  let year :=
    match yearElement with
    | Some e => Js.trim (textContent e) | None => "Unknown Year" end in
  let citations :=
    match citationsElement with
    | Some e => Js.trim (textContent e) | None => "0" end in
  {| id := index + 1;
     title := truncateTitle title;
     authors := authors;
     venue := venue;
     year := year;
     citations := citations;
     link := match titleElement with
             | Some t => href t
             | None => Some "#"
             end |}.

Definition fallbackPublications : list Publication :=
  [ {| id := 1;
       title := "Network traffic profiling using data mining technique in campus environment";
       authors := "M. A. M. Ariffin, R. Ishak, S. A. Ahmad, and Z. Kasiran";
       venue := "International Journal of Advanced Trends in Computer Science and Engineering";
       year := "2020"; citations := "15"; link := Some "#" |};
    {| id := 2;
       title := "Data leakage detection in cloud computing platform";
       authors := "M. A. M. Ariffin, K. A. Rahman, M. Y. Darus, N. Awang, and Z. Kasiran";
       venue := "International Journal of Advanced Trends in Computer Science and Engineering";
       year := "2019"; citations := "12"; link := Some "#" |};
    {| id := 3;
       title := "API Vulnerabilities In Cloud Computing Platform: Attack And Detection";
       authors := "M. A. M. Ariffin, M. F. Ibrahim and Z. Kasiran";
       venue := "International Journal of Engineering Trends and Technology (IJETT)";
       year := "2020"; citations := "8"; link := Some "#" |};
    {| id := 4;
       title := "Multi-level resilience in networked environments: Concepts & principles";
       authors := "M. A. M. Ariffin, A. K. Marnerides, and A. U. Mauthe";
       venue := "2017 14th IEEE Annual Consumer Communications and Networking Conference";
       year := "2017"; citations := "25"; link := Some "#" |};
    {| id := 5;
       title := "Automatic Climate Control for Mushroom Cultivation using IoT Approach";
       authors := "Ariffin, M., Ramli, M., Amin, M., Ismail, M., Zainol, Z., Ahmad, N., & Jamil, N.";
       venue := "2020 IEEE 10th International Conference on System Engineering and Technology (ICSET)";
       year := "2020"; citations := "18"; link := Some "#" |};
    {| id := 6;
       title := "IoT-Based Flash Flood Detection and Alert Using TensorFlow";
       authors := "Rashid, A.A., Ariffin, M.A.M., Kasiran, Z.";
       venue := "Proceedings - 2021 11th IEEE International Conference on Control System, Computing and Engineering";
       year := "2021"; citations := "10"; link := Some "#" |};
    {| id := 7;
       title := "Local File Inclusion Vulnerability Scanner with Tor Proxy";
       authors := "K. A. H. H. B. C. K. M. Sahidi, M. A. M. Ariffin, M. I. Ramli and Z. Kasiran";
       venue := "2021 IEEE International Conference on Signal and Image Processing Applications (ICSIPA)";
       year := "2021"; citations := "5"; link := Some "#" |};
    {| id := 8;
       title := "A Case Study On Digital Divide And Access To Information Communication Technologies (Icts) In Pulau Tuba, Langkawi, Malaysia";
       authors := "Et. al., M.";
       venue := "Turkish Journal Of Computer And Mathematics Education (TURCOMAT)";
       year := "2021"; citations := "7"; link := Some "#" |};
    {| id := 9;
       title := "Detecting Anomaly in IoT Devices using Multi-Threaded Autonomous Anomaly Detection";
       authors := "MYI Basheer, AM Ali, NHA Hamid, MAM Ariffin, R Osman, S Nordin";
       venue := "2021 4th International Symposium on Agents, Multi-Agent Systems and Robotics";
       year := "2021"; citations := "3"; link := Some "#" |};
    {| id := 10;
       title := "Implementation Of Dynamic Honeypot On Raspberry Pi";
       authors := "ADI RIDZAN ADNAN, MUHAMMAD AZIZI BIN MOHD ARIFFIN";
       venue := "i-IDeA 2020 - 5TH INTERNATIONAL INNOVATION, DESIGN & ARTICULATION";
       year := "2021"; citations := "2"; link := Some "#" |} ].

Definition loadFallbackPublications : M State unit :=
  setPublications fallbackPublications.

(** *** Vocabulary of the statements *)

(** The records of an element list. *)
Definition livePublications (elements : list Element) : list Publication :=
  mapIndexed toPublication elements 0.

(** What [parsePublications] leaves in [publications] for a parsed
    document: the live records, or the fallback when there are under five. *)
Definition publicationsOfDocument (doc : Document) : list Publication :=
  let live := livePublications (findPublicationElements doc selectors []) in
  if (List.length live <? 5)%nat then fallbackPublications else live.

Section WithHost.
Variable host : Host.

(** The address [fetchPublications] requests. *)
Definition requestUrl (st : State) : string :=
  "https://api.allorigins.win/raw?url=" ++ encodeURIComponent host (scholarUrl st).

Definition parsePublications (html : string) : M State unit :=
  doc <- lift (parseFromString host html) ;;
  let publicationElements := findPublicationElements doc selectors [] in
  setPublications (mapIndexed toPublication publicationElements 0) ;;
  pubs <- getPublications ;;
  if (List.length pubs =? 0)%nat || (List.length pubs <? 5)%nat
  then loadFallbackPublications
  else ret tt.

Definition fetchPublications : M State unit :=
  setIsLoading true ;;
  tryFinally
    (tryCatch
       (let proxyUrl := "https://api.allorigins.win/raw?url=" in
        url <- getScholarUrl ;;
        response <- lift (fetch host (proxyUrl ++ encodeURIComponent host url)) ;;
        (if negb (ok response)
         then throw ("HTTP error! status: " ++ numberToString (Browser.status response))
         else ret tt) ;;
        html <- lift (text response) ;;
        parsePublications html)
       (fun error => loadFallbackPublications))
    (setIsLoading false).

End WithHost.

End Publications.

(** ** Vocabulary shared by the statements *)

(** [keyword] occurs in [text] up to letter case: some substring of [text]
    has the same lower-case form as [keyword]. *)
Definition occursIgnoringCase (keyword text : string) : Prop :=
  exists before word after,
    text = before ++ word ++ after
    /\ Js.toLowerCase word = Js.toLowerCase keyword.

(** The first line of [text] with a character that is not white space,
    the [lines[0]] of [extractTitle]. *)
Definition firstNonEmptyLine (text : string) : option string :=
  hd_error (Grants.titleLines text).

(** The truncation rule in its plain reading: a line over the limit is cut
    to the limit and marked, any other line is the title as it stands. *)
Definition titleRuleAsStated (limit : nat) (line title : string) : Prop :=
  (limit < String.length line -> title = Js.substring line 0 limit ++ "...")
  /\ (String.length line <= limit -> title = line).

(** ** Sample pages and hosts *)

Module Demo.
Import Browser.

(** An element with text only. *)
Definition leaf (text : string) : Element :=
  mkElement text None (fun _ => []).

(** A host whose request succeeds and whose parser returns [doc]. *)
Definition serving (doc : Document) : Host :=
  {| fetch := fun _ => Normal {| ok := true; status := 200;
                                 text := Normal "<html></html>" |};
     encodeURIComponent := fun url => url;
     parseFromString := fun _ => Normal doc |}.

(** A host without network. *)
Definition offline : Host :=
  {| fetch := fun _ => Throw "Failed to fetch";
     encodeURIComponent := fun url => url;
     parseFromString := fun _ => Normal (fun _ => []) |}.

(** A host whose relay answers 503. *)
Definition refusing : Host :=
  {| fetch := fun _ => Normal {| ok := false; status := 503;
                                 text := Normal "Service Unavailable" |};
     encodeURIComponent := fun url => url;
     parseFromString := fun _ => Normal (fun _ => []) |}.

(** A host whose parser throws. *)
Definition unparsable : Host :=
  {| fetch := fun _ => Normal {| ok := true; status := 200;
                                 text := Normal "<html></html>" |};
     encodeURIComponent := fun url => url;
     parseFromString := fun _ => Throw "DOMParser is not defined" |}.

(** A page no selector matches. *)
Definition blank : Document := fun _ => [].

(** A grants page: three table rows, and list items further down the
    selector list. *)
Definition grantsPage : Document :=
  fun selector =>
    if selector =? "table tr"
    then [ leaf "  Name ";
           leaf ("  FRGS grant 2024 " ++ Js.LF ++ " Active ");
           leaf "KPM, Autonomous Anomaly Detection in Streaming Data, (Ref: RACER/1/2019/ICT02/UITM//4), Role: Team Member." ]
    else if selector =? ".list-item"
    then [ leaf "Research project on radar images" ]
    else [].

(** A page whose first matching selector holds navigation only, with
    grant rows further down the selector list. *)
Definition menuPage : Document :=
  fun selector =>
    if selector =? ".grant-item"
    then [ leaf "Contact"; leaf " Home page link " ]
    else if selector =? "table tr"
    then [ leaf "FRGS grant 2024, Active" ]
    else [].

(** A page whose matched elements are all too short or off topic. *)
Definition chromePage : Document :=
  fun selector =>
    if selector =? ".grant-item"
    then [ leaf "Contact"; leaf " Home page link " ]
    else if selector =? "table tr"
    then [ leaf "  Name " ]
    else [].

(** Two lines of grant text, the first with a space at its end. *)
Definition paddedText : string := "FRGS grant 2024 " ++ Js.LF ++ "Active".

(** A first line of 98 visible characters and 5 spaces, then a second
    line. *)
Definition longPaddedText : string :=
  "Research grant: coupled hybrid feature extraction and classification of radar reflectivity images.     "
  ++ Js.LF ++ "2021 - 2024".

(** A first line of 135 characters. *)
Definition longText : string :=
  "Coupled Hybrid Feature Extraction And Classification Of Radar Reflectivity Images For Convective-stratiform Tropical Rainfall Estimates"
  ++ Js.LF ++ "FRGS".

(** A table row whose text starts on its second line and that holds no
    title link. *)
Definition bareRow : Element :=
  leaf (Js.LF ++ "  Real title" ++ Js.LF).

(** The sample text of the specification. *)
Definition racerText : string :=
  "KPM, Autonomous Anomaly Detection in Streaming Data, (Ref: RACER/1/2019/ICT02/UITM//4), Role: Team Member.".

(** A Google Scholar table row. *)
Definition scholarRow (title authors venue year cited : string) : Element :=
  mkElement (title ++ authors ++ venue ++ cited ++ year) None
    (fun selector =>
       if selector =? ".gsc_a_at"
       then [ mkElement title (Some "https://scholar.google.com/citations?view_op=view_citation")
                        (fun _ => []) ]
       else if selector =? ".gs_gray" then [ leaf authors; leaf venue ]
       else if selector =? ".gsc_a_y" then [ leaf year ]
       else if selector =? ".gsc_a_c" then [ leaf cited ]
       else []).

Definition row1 : Element :=
  scholarRow "Network traffic profiling" "MAM Ariffin, R Ishak" "IJATCSE" "2020" "15".
Definition row2 : Element :=
  scholarRow "Data leakage detection" "MAM Ariffin, KA Rahman" "IJATCSE" "2019" "12".

(** A Scholar page with [n] rows, and title links further down the
    selector list. *)
Definition scholarPage (n : nat) : Document :=
  fun selector =>
    if selector =? ".gsc_a_tr" then repeat row1 n
    else if selector =? ".gsc_a_at" then [ leaf "a title link" ]
    else [].

End Demo.


(** ** The modal text area *)

Module View.

(** A write to [textArea.innerHTML]: [innerHTML = html] or
    [innerHTML += html].  What the browser makes of the markup is the
    browser's; the text area is kept as the sequence of its writes. *)
Inductive Write : Type :=
| Assign (html : string)
| Append (html : string).

(** The modal of a widget as its methods see it: whether
    [document.querySelector] finds the modal body, whether the modal body
    holds the paragraph [p.mb-5.text-left], and the writes that paragraph
    has received. *)
Record Page : Type := mkPage {
  modalBody : bool;
  textArea : bool;
  innerHTML : list Write
}.

(** An instance with fields [S] in front of its modal. *)
Record Scene (S : Type) : Type := mkScene {
  fields : S;
  page : Page
}.
Arguments mkScene {S} fields page.
Arguments fields {S} s.
Arguments page {S} s.

(** A method of the fields, run in front of the modal. *)
Definition onFields {S A : Type} (m : M S A) : M (Scene S) A :=
  fun sc =>
    match m (fields sc) with
    | (c, st') => (c, {| fields := st'; page := page sc |})
    end.

Definition getPage {S : Type} : M (Scene S) Page :=
  fun sc => (Normal (page sc), sc).

Definition write {S : Type} (w : Write) : M (Scene S) unit :=
  fun sc =>
    (Normal tt,
     {| fields := fields sc;
        page := {| modalBody := modalBody (page sc);
                   textArea := textArea (page sc);
                   innerHTML := (innerHTML (page sc) ++ [w])%list |} |}).

(** [xs.forEach((x, index) => f x index)], counting from [i]. *)
Fixpoint forEachIndexed {St A : Type} (xs : list A) (f : A -> nat -> M St unit)
         (i : nat) : M St unit :=
  match xs with
  | [] => ret tt
  | x :: xs' => f x i ;; forEachIndexed xs' f (S i)
  end.

(** *** Vocabulary of the statements *)

(** The markup pieces a text area holds after a sequence of writes: an
    assignment drops what was there, an append adds to it. *)
Definition held (ws : list Write) : list string :=
  fold_left (fun pieces w =>
               match w with
               | Assign html => [html]
               | Append html => (pieces ++ [html])%list
               end) ws [].

(** Whether the methods find the text area. *)
Definition present (pg : Page) : bool := modalBody pg && textArea pg.

(** The scene once its text area has received the writes [ws]. *)
Definition written {S : Type} (sc : Scene S) (ws : list Write) : Scene S :=
  {| fields := fields sc;
     page := {| modalBody := modalBody (page sc);
                textArea := textArea (page sc);
                innerHTML := (innerHTML (page sc) ++ ws)%list |} |}.

(** The scene once its fields have become [st]. *)
Definition withFields {S : Type} (sc : Scene S) (st : S) : Scene S :=
  {| fields := st; page := page sc |}.

End View.

(** ** Rendering the research grants *)

Module GrantsView.
Import Browser View Grants.

Definition headerMarkup : string := "<b>Research Grants & Projects</b><br><br>".

Definition activeHeaderMarkup : string := "<b>Active Research Grants</b><br><br>".

Definition completedHeaderMarkup : string :=
  "<br><b>Completed Research Grants</b><br><br>".

(** The template literal of the [activeGrants.forEach] callback. *)
Definition activeGrantMarkup (grant : Grant) (index : nat) : string :=
  Js.LF
  ++ "                    <div class=" ++ Js.quote ++ "research-grant-item mb-3 p-3 border-left border-primary" ++ Js.quote ++ ">" ++ Js.LF
  ++ "                        <strong>[" ++ numberToString (index + 1) ++ "] " ++ title grant ++ "</strong><br>" ++ Js.LF
  ++ "                        <span class=" ++ Js.quote ++ "text-muted" ++ Js.quote ++ ">" ++ details grant ++ "</span><br>" ++ Js.LF
  ++ "                        <small class=" ++ Js.quote ++ "badge badge-primary" ++ Js.quote ++ ">" ++ type grant ++ " - " ++ status grant ++ "</small><br><br>" ++ Js.LF
  ++ "                    </div>" ++ Js.LF
  ++ "                ".

(** The template literal of the [completedGrants.forEach] callback. *)
Definition completedGrantMarkup (grant : Grant) (index : nat) : string :=
  Js.LF
  ++ "                    <div class=" ++ Js.quote ++ "research-grant-item mb-3 p-3 border-left border-success" ++ Js.quote ++ ">" ++ Js.LF
  ++ "                        <strong>[" ++ numberToString (index + 1) ++ "] " ++ title grant ++ "</strong><br>" ++ Js.LF
  ++ "                        <span class=" ++ Js.quote ++ "text-muted" ++ Js.quote ++ ">" ++ details grant ++ "</span><br>" ++ Js.LF
  ++ "                        <small class=" ++ Js.quote ++ "badge badge-success" ++ Js.quote ++ ">" ++ type grant ++ " - " ++ status grant ++ "</small><br><br>" ++ Js.LF
  ++ "                    </div>" ++ Js.LF
  ++ "                ".

(** The note about the data source. *)
Definition sourceNoteMarkup (url : string) : string :=
  Js.LF
  ++ "            <div class=" ++ Js.quote ++ "mt-4 p-3 bg-light rounded" ++ Js.quote ++ ">" ++ Js.LF
  ++ "                <small class=" ++ Js.quote ++ "text-muted" ++ Js.quote ++ ">" ++ Js.LF
  ++ "                    <i class=" ++ Js.quote ++ "fas fa-info-circle" ++ Js.quote ++ "></i> " ++ Js.LF
  ++ "                    Research grant data is automatically fetched from UiTM Expert profile. " ++ Js.LF
  ++ "                    <a href=" ++ Js.quote ++ url ++ Js.quote ++ " target=" ++ Js.quote ++ "_blank" ++ Js.quote ++ " class=" ++ Js.quote ++ "text-primary" ++ Js.quote ++ ">View full profile</a>" ++ Js.LF
  ++ "                </small>" ++ Js.LF
  ++ "            </div>" ++ Js.LF
  ++ "        ".

Definition loadingMarkup : string :=
  Js.LF
  ++ "            <div class=" ++ Js.quote ++ "text-center" ++ Js.quote ++ ">" ++ Js.LF
  ++ "                <div class=" ++ Js.quote ++ "spinner-border text-primary" ++ Js.quote ++ " role=" ++ Js.quote ++ "status" ++ Js.quote ++ ">" ++ Js.LF
  ++ "                    <span class=" ++ Js.quote ++ "sr-only" ++ Js.quote ++ ">Loading...</span>" ++ Js.LF
  ++ "                </div>" ++ Js.LF
  ++ "                <p class=" ++ Js.quote ++ "mt-2" ++ Js.quote ++ ">Loading research grants from UiTM Expert...</p>" ++ Js.LF
  ++ "            </div>" ++ Js.LF
  ++ "        ".

Definition errorMarkup (url : string) : string :=
  Js.LF
  ++ "            <div class=" ++ Js.quote ++ "alert alert-warning" ++ Js.quote ++ ">" ++ Js.LF
  ++ "                <h5>Unable to load research grants automatically</h5>" ++ Js.LF
  ++ "                <p>Please visit my <a href=" ++ Js.quote ++ url ++ Js.quote ++ " target=" ++ Js.quote ++ "_blank" ++ Js.quote ++ " class=" ++ Js.quote ++ "alert-link" ++ Js.quote ++ ">UiTM Expert profile</a> to view my research grants.</p>" ++ Js.LF
  ++ "            </div>" ++ Js.LF
  ++ "        ".

Definition displayResearchGrants : M (Scene State) unit :=
  pg <- getPage ;;
  if negb (modalBody pg) then ret tt
  else if negb (textArea pg) then ret tt
  else
    write (Assign "") ;;
    write (Append headerMarkup) ;;
    grants <- onFields getResearchGrants ;;
    let activeGrants := filter (fun grant => status grant =? "Active") grants in
    let completedGrants := filter (fun grant => status grant =? "Completed") grants in
    (if (0 <? List.length activeGrants)%nat
     then write (Append activeHeaderMarkup) ;;
          forEachIndexed activeGrants
            (fun grant index => write (Append (activeGrantMarkup grant index))) 0
     else ret tt) ;;
    (if (0 <? List.length completedGrants)%nat
     then write (Append completedHeaderMarkup) ;;
          forEachIndexed completedGrants
            (fun grant index => write (Append (completedGrantMarkup grant index))) 0
     else ret tt) ;;
    url <- onFields getExpertUrl ;;
    write (Append (sourceNoteMarkup url)).

Definition showLoadingState : M (Scene State) unit :=
  pg <- getPage ;;
  if negb (modalBody pg) then ret tt
  else if negb (textArea pg) then ret tt
  else write (Assign loadingMarkup).

Definition displayError : M (Scene State) unit :=
  pg <- getPage ;;
  if negb (modalBody pg) then ret tt
  else if negb (textArea pg) then ret tt
  else url <- onFields getExpertUrl ;;
       write (Assign (errorMarkup url)).

Section WithHost.
Variable host : Host.

(** [fetchResearchGrants] with its call of [showLoadingState]. *)
Definition fetchResearchGrants : M (Scene State) unit :=
  onFields (setIsLoading true) ;;
  showLoadingState ;;
  tryFinally
    (tryCatch
       (let proxyUrl := "https://api.allorigins.win/raw?url=" in
        url <- onFields getExpertUrl ;;
        response <- lift (fetch host (proxyUrl ++ encodeURIComponent host url)) ;;
        (if negb (ok response)
         then throw ("HTTP error! status: " ++ numberToString (Browser.status response))
         else ret tt) ;;
        html <- lift (text response) ;;
        onFields (parseResearchGrants host html))
       (fun error => onFields loadFallbackResearchGrants))
    (onFields (setIsLoading false)).

Definition init : M (Scene State) unit :=
  tryCatch
    (fetchResearchGrants ;;
     displayResearchGrants)
    (fun error => displayError).

Definition refresh : M (Scene State) unit := init.

(** The [show.bs.modal] handler of the modal. *)
Definition onShowModal : M (Scene State) unit :=
  grants <- onFields getResearchGrants ;;
  if (List.length grants =? 0)%nat then init else ret tt.

End WithHost.

(** *** Vocabulary of the statements *)

(** The test of the two groups [displayResearchGrants] renders. *)
Definition displayed (grant : Grant) : bool :=
  (status grant =? "Active") || (status grant =? "Completed").

(** The markup [displayResearchGrants] appends after it has emptied the
    text area, piece by piece. *)
Definition displayPieces (st : State) : list string :=
  let activeGrants := filter (fun grant => status grant =? "Active") (researchGrants st) in
  let completedGrants :=
    filter (fun grant => status grant =? "Completed") (researchGrants st) in
  ([headerMarkup]
   ++ (if (0 <? List.length activeGrants)%nat
       then activeHeaderMarkup :: mapIndexed activeGrantMarkup activeGrants 0
       else [])
   ++ (if (0 <? List.length completedGrants)%nat
       then completedHeaderMarkup :: mapIndexed completedGrantMarkup completedGrants 0
       else [])
   ++ [sourceNoteMarkup (expertUrl st)])%list.

(** The fields with the records [displayResearchGrants] does not render
    taken out. *)
Definition withoutUndisplayed (st : State) : State :=
  {| expertUrl := expertUrl st;
     researchGrants := filter displayed (researchGrants st);
     isLoading := isLoading st |}.

End GrantsView.

(** ** Rendering the publications *)

Module PublicationsView.
Import Browser View Publications.

Definition headerMarkup : string := "<b>Publications</b><br><br>".

(** The template literal of the [publications.forEach] callback. *)
Definition publicationMarkup (pub : Publication) (index : nat) : string :=
  Js.LF
  ++ "                <div class=" ++ Js.quote ++ "publication-item mb-3 p-2 border-left border-primary" ++ Js.quote ++ ">" ++ Js.LF
  ++ "                    <strong>[" ++ numberToString (index + 1) ++ "] " ++ title pub ++ "</strong><br>" ++ Js.LF
  ++ "                    <em class=" ++ Js.quote ++ "text-secondary" ++ Js.quote ++ ">" ++ authors pub ++ "</em><br>" ++ Js.LF
  ++ "                    <span class=" ++ Js.quote ++ "text-muted" ++ Js.quote ++ ">" ++ venue pub ++ ", " ++ year pub ++ "</span><br>" ++ Js.LF
  ++ "                    <small class=" ++ Js.quote ++ "badge badge-info" ++ Js.quote ++ ">Citations: " ++ citations pub ++ "</small><br><br>" ++ Js.LF
  ++ "                </div>" ++ Js.LF
  ++ "            ".

(** The note about the data source and the loading status. *)
Definition sourceNoteMarkup (isUsingFallback : bool) (url : string) : string :=
  Js.LF
  ++ "            <div class=" ++ Js.quote ++ "mt-4 p-3 bg-light rounded" ++ Js.quote ++ ">" ++ Js.LF
  ++ "                <small class=" ++ Js.quote ++ "text-muted" ++ Js.quote ++ ">" ++ Js.LF
  ++ "                    <i class=" ++ Js.quote ++ "fas fa-info-circle" ++ Js.quote ++ "></i> " ++ Js.LF
  ++ "                    " ++ (if isUsingFallback then "Showing cached publication data. " else "Publication data fetched from Google Scholar. ") ++ Js.LF
  ++ "                    <a href=" ++ Js.quote ++ url ++ Js.quote ++ " target=" ++ Js.quote ++ "_blank" ++ Js.quote ++ " class=" ++ Js.quote ++ "text-primary" ++ Js.quote ++ ">View full profile</a>" ++ Js.LF
  ++ "                    " ++ (if isUsingFallback then "<br><small class=" ++ Js.quote ++ "text-warning" ++ Js.quote ++ "><i class=" ++ Js.quote ++ "fas fa-exclamation-triangle" ++ Js.quote ++ "></i> Some publications may not be displayed due to loading limitations.</small>" else "") ++ Js.LF
  ++ "                </small>" ++ Js.LF
  ++ "            </div>" ++ Js.LF
  ++ "        ".

Definition loadingMarkup : string :=
  Js.LF
  ++ "            <div class=" ++ Js.quote ++ "text-center" ++ Js.quote ++ ">" ++ Js.LF
  ++ "                <div class=" ++ Js.quote ++ "spinner-border text-primary" ++ Js.quote ++ " role=" ++ Js.quote ++ "status" ++ Js.quote ++ ">" ++ Js.LF
  ++ "                    <span class=" ++ Js.quote ++ "sr-only" ++ Js.quote ++ ">Loading...</span>" ++ Js.LF
  ++ "                </div>" ++ Js.LF
  ++ "                <p class=" ++ Js.quote ++ "mt-2" ++ Js.quote ++ ">Loading publications from Google Scholar...</p>" ++ Js.LF
  ++ "            </div>" ++ Js.LF
  ++ "        ".

Definition errorMarkup (url : string) : string :=
  Js.LF
  ++ "            <div class=" ++ Js.quote ++ "alert alert-warning" ++ Js.quote ++ ">" ++ Js.LF
  ++ "                <h5>Unable to load publications automatically</h5>" ++ Js.LF
  ++ "                <p>Please visit my <a href=" ++ Js.quote ++ url ++ Js.quote ++ " target=" ++ Js.quote ++ "_blank" ++ Js.quote ++ " class=" ++ Js.quote ++ "alert-link" ++ Js.quote ++ ">Google Scholar profile</a> to view my publications.</p>" ++ Js.LF
  ++ "            </div>" ++ Js.LF
  ++ "        ".

Definition displayPublications : M (Scene State) unit :=
  pg <- getPage ;;
  if negb (modalBody pg) then ret tt
  else if negb (textArea pg) then ret tt
  else
    write (Assign "") ;;
    write (Append headerMarkup) ;;
    pubs <- onFields getPublications ;;
    forEachIndexed pubs
      (fun pub index => write (Append (publicationMarkup pub index))) 0 ;;
    pubs <- onFields getPublications ;;
    let isUsingFallback := (List.length pubs <=? 10)%nat in
    url <- onFields getScholarUrl ;;
    write (Append (sourceNoteMarkup isUsingFallback url)).

Definition showLoadingState : M (Scene State) unit :=
  pg <- getPage ;;
  if negb (modalBody pg) then ret tt
  else if negb (textArea pg) then ret tt
  else write (Assign loadingMarkup).

Definition displayError : M (Scene State) unit :=
  pg <- getPage ;;
  if negb (modalBody pg) then ret tt
  else if negb (textArea pg) then ret tt
  else url <- onFields getScholarUrl ;;
       write (Assign (errorMarkup url)).

Section WithHost.
Variable host : Host.

(** [fetchPublications] with its call of [showLoadingState]. *)
Definition fetchPublications : M (Scene State) unit :=
  onFields (setIsLoading true) ;;
  showLoadingState ;;
  tryFinally
    (tryCatch
       (let proxyUrl := "https://api.allorigins.win/raw?url=" in
        url <- onFields getScholarUrl ;;
        response <- lift (fetch host (proxyUrl ++ encodeURIComponent host url)) ;;
        (if negb (ok response)
         then throw ("HTTP error! status: " ++ numberToString (Browser.status response))
         else ret tt) ;;
        html <- lift (text response) ;;
        onFields (parsePublications host html))
       (fun error => onFields loadFallbackPublications))
    (onFields (setIsLoading false)).

Definition init : M (Scene State) unit :=
  tryCatch
    (fetchPublications ;;
     displayPublications)
    (fun error => displayError).

Definition refresh : M (Scene State) unit := init.

(** The [show.bs.modal] handler of the modal. *)
Definition onShowModal : M (Scene State) unit :=
  pubs <- onFields getPublications ;;
  if (List.length pubs =? 0)%nat then init else ret tt.

End WithHost.

(** *** Vocabulary of the statements *)

(** The markup [displayPublications] appends after it has emptied the
    text area, piece by piece. *)
Definition displayPieces (st : State) : list string :=
  ([headerMarkup]
   ++ mapIndexed publicationMarkup (publications st) 0
   ++ [sourceNoteMarkup (List.length (publications st) <=? 10)%nat (scholarUrl st)])%list.

End PublicationsView.

(** ** Sample modals *)

Module DemoView.
Import View.

(** A modal with its text area, not written to yet. *)
Definition modal : Page :=
  {| modalBody := true; textArea := true; innerHTML := [] |}.

(** A page without the modal. *)
Definition bare : Page :=
  {| modalBody := false; textArea := false; innerHTML := [] |}.

(** A fresh grants widget in front of its modal. *)
Definition grantsScene : Scene Grants.State :=
  {| fields := Grants.constructor; page := modal |}.

(** A fresh publications widget in front of its modal. *)
Definition publicationsScene : Scene Publications.State :=
  {| fields := Publications.constructor; page := modal |}.

(** A text of white space only, on two lines. *)
Definition blankText : string := "  " ++ Js.LF ++ " ".


(** A grants page whose only row is the 2019 RACER grant. *)
Definition racerPage : Browser.Document :=
  fun selector =>
    if selector =? "table tr" then [ Demo.leaf Demo.racerText ] else [].

(** A widget that holds the fallback, in front of its modal after a
    display. *)
Definition staleScene : Scene Grants.State :=
  {| fields := {| Grants.expertUrl := Grants.expertUrl Grants.constructor;
                  Grants.researchGrants := Grants.fallbackResearchGrants;
                  Grants.isLoading := false |};
     page := {| modalBody := true; textArea := true;
                innerHTML := [Assign "old"; Append "older still"] |} |}.

End DemoView.

(** * Properties *)

(** ** Strings *)

Section StringFacts.

Lemma append_nil_r (s : string) : s ++ "" = s.
Proof. induction s; simpl; congruence. Qed.

Lemma append_assoc (a b c : string) : (a ++ b) ++ c = a ++ b ++ c.
Proof. induction a; simpl; congruence. Qed.

Lemma length_append (a b : string) :
  String.length (a ++ b) = String.length a + String.length b.
Proof. induction a; simpl; auto. Qed.

Lemma startsWith_iff (s t : string) :
  Js.startsWith s t = true <-> exists after, s = t ++ after.
Proof.
  revert s; induction t as [|b t IH]; intros s; simpl.
  - split; [intros _; now exists s | reflexivity].
  - destruct s as [|a s].
    + split; [discriminate | intros [after H]; discriminate].
    + rewrite andb_true_iff, Ascii.eqb_eq, IH. split.
      * intros [-> [after ->]]. now exists after.
      * intros [after H]. injection H as -> ->. split; [reflexivity | now exists after].
Qed.

Lemma includes_iff (s t : string) :
  Js.includes s t = true <-> exists before after, s = before ++ t ++ after.
Proof.
  induction s as [|a s IH]; simpl.
  - rewrite orb_false_r, startsWith_iff. split.
    + intros [after H]. now exists "", after.
    + intros [before [after H]]. destruct before; [now exists after | discriminate].
  - rewrite orb_true_iff, startsWith_iff, IH. split.
    + intros [[after H] | [before [after H]]].
      * now exists "", after.
      * exists (String a before), after. simpl. now rewrite H.
    + intros [before [after H]]. destruct before as [|c before]; simpl in H.
      * left. now exists after.
      * right. injection H as _ H. now exists before, after.
Qed.

Lemma toLowerCase_append (a b : string) :
  Js.toLowerCase (a ++ b) = Js.toLowerCase a ++ Js.toLowerCase b.
Proof. induction a; simpl; congruence. Qed.

Lemma toLowerCase_split (s a b : string) :
  Js.toLowerCase s = a ++ b ->
  exists s1 s2, s = s1 ++ s2 /\ Js.toLowerCase s1 = a /\ Js.toLowerCase s2 = b.
Proof.
  revert s; induction a as [|c a IH]; intros s H; simpl in H.
  - now exists "", s.
  - destruct s as [|d s]; [discriminate|]. simpl in H. injection H as Hc H.
    destruct (IH _ H) as [s1 [s2 [-> [H1 H2]]]].
    exists (String d s1), s2. simpl. now rewrite Hc, H1.
Qed.

(** [includes] on the lower-cased text is the case-blind occurrence. *)
Lemma includes_toLowerCase_iff (text keyword : string) :
  Js.includes (Js.toLowerCase text) (Js.toLowerCase keyword) = true
  <-> occursIgnoringCase keyword text.
Proof.
  rewrite includes_iff. unfold occursIgnoringCase. split.
  - intros [before [after H]].
    destruct (toLowerCase_split _ _ _ H) as [s1 [s2 [-> [_ H2]]]].
    destruct (toLowerCase_split _ _ _ H2) as [w [s3 [-> [Hw _]]]].
    now exists s1, w, s3.
  - intros [before [word [after [-> Hw]]]].
    exists (Js.toLowerCase before), (Js.toLowerCase after).
    now rewrite !toLowerCase_append, Hw.
Qed.

End StringFacts.

(** ** Trimming, splitting and cutting *)

Section TrimFacts.

Lemma length_trimStart_le (s : string) :
  String.length (Js.trimStart s) <= String.length s.
Proof.
  induction s as [|c s IH]; simpl; [lia|].
  destruct (Js.isWhiteSpace c); simpl; lia.
Qed.

Lemma length_trimEnd_le (s : string) :
  String.length (Js.trimEnd s) <= String.length s.
Proof.
  induction s as [|c s IH]; simpl; [lia|].
  destruct (Js.trimEnd s); [destruct (Js.isWhiteSpace c)|]; simpl in *; lia.
Qed.

Lemma length_trim_le (s : string) :
  String.length (Js.trim s) <= String.length s.
Proof.
  unfold Js.trim.
  pose proof (length_trimEnd_le (Js.trimStart s)).
  pose proof (length_trimStart_le s). lia.
Qed.

(** A text that [trim] leaves alone does not start with white space. *)
Lemma trimmed_head (c : ascii) (s : string) :
  Js.trim (String c s) = String c s -> Js.isWhiteSpace c = false.
Proof.
  intros H. destruct (Js.isWhiteSpace c) eqn:E; [|reflexivity].
  exfalso. unfold Js.trim in H. simpl in H. rewrite E in H.
  pose proof (length_trimEnd_le (Js.trimStart s)) as H1.
  pose proof (length_trimStart_le s) as H2.
  rewrite H in H1. simpl in H1. lia.
Qed.

(** A line that starts with a visible character survives [trim]. *)
Lemma trim_visible_head (c : ascii) (s : string) :
  Js.isWhiteSpace c = false ->
  exists r, Js.trim (String c s) = String c r.
Proof.
  intros E. unfold Js.trim. simpl Js.trimStart. rewrite E. simpl.
  destruct (Js.trimEnd s) as [|d r].
  - rewrite E. now exists "".
  - now exists (String d r).
Qed.

Lemma split_newline_cons (s : string) :
  exists l ls, Js.split_newline s = l :: ls.
Proof.
  induction s as [|c s [l [ls IH]]]; simpl.
  - now exists "", [].
  - destruct (Ascii.eqb c Js.newline).
    + now exists "", (Js.split_newline s).
    + rewrite IH. now exists (String c l), ls.
Qed.

Lemma newline_isWhiteSpace (c : ascii) :
  Ascii.eqb c Js.newline = true -> Js.isWhiteSpace c = true.
Proof. rewrite Ascii.eqb_eq. intros ->. reflexivity. Qed.

(** The first line of a text that starts with a visible character starts
    with that character. *)
Lemma split_newline_visible_head (c : ascii) (s : string) :
  Js.isWhiteSpace c = false ->
  exists l ls, Js.split_newline (String c s) = String c l :: ls.
Proof.
  intros E. simpl.
  destruct (Ascii.eqb c Js.newline) eqn:N.
  - apply newline_isWhiteSpace in N. congruence.
  - destruct (split_newline_cons s) as [l [ls ->]]. now exists l, ls.
Qed.

Lemma substring_short (s : string) (n : nat) :
  String.length s <= n -> Js.substring s 0 n = s.
Proof.
  unfold Js.substring. rewrite Nat.min_0_l, Nat.max_0_l, Nat.sub_0_r.
  revert n; induction s as [|c s IH]; intros n H.
  - now destruct n.
  - destruct n as [|n]; simpl in *; [lia|]. f_equal. apply IH. lia.
Qed.

Lemma length_substring_long (s : string) (n : nat) :
  n <= String.length s -> String.length (Js.substring s 0 n) = n.
Proof.
  unfold Js.substring. rewrite Nat.min_0_l, Nat.max_0_l, Nat.sub_0_r.
  revert n; induction s as [|c s IH]; intros n H.
  - destruct n; simpl in *; [reflexivity | lia].
  - destruct n as [|n]; simpl in *; [reflexivity|]. f_equal. apply IH. lia.
Qed.

(** A trimmed, non-empty text has a first non-empty line. *)
Lemma titleLines_trimmed (text : string) :
  Js.trim text = text -> 0 < String.length text ->
  exists line0 rest, Grants.titleLines text = line0 :: rest.
Proof.
  intros T L. destruct text as [|c s]; [simpl in L; lia|].
  pose proof (trimmed_head _ _ T) as E.
  destruct (split_newline_visible_head c s E) as [l [ls Hs]].
  destruct (trim_visible_head c l E) as [r Hr].
  unfold Grants.titleLines. rewrite Hs. simpl filter. rewrite Hr. simpl.
  now eexists _, _.
Qed.

End TrimFacts.

(** ** Running the grants methods *)

Section GrantsRuns.
Import Grants.

Lemma liveGrantsFrom_cons (start : nat) (e : Browser.Element) (es : list Browser.Element) :
  liveGrantsFrom start (e :: es)
  = if survives (candidateText e)
    then grantOf (start + 1) (candidateText e) :: liveGrantsFrom (S start) es
    else liveGrantsFrom start es.
Proof.
  unfold liveGrantsFrom, keptTexts. simpl.
  now destruct (survives (candidateText e)).
Qed.

Lemma length_liveGrantsFrom (start : nat) (es : list Browser.Element) :
  List.length (liveGrantsFrom start es) = List.length (keptTexts es).
Proof.
  unfold liveGrantsFrom. generalize (keptTexts es); intros ts.
  revert start; induction ts as [|t ts IH]; intros start; simpl; auto.
Qed.

(** One element: the list grows by the element's record, or stays. *)
Lemma visitElement_run (e : Browser.Element) (st : State) :
  visitElement e st
  = (Normal tt,
     {| expertUrl := expertUrl st;
        researchGrants :=
          (researchGrants st
           ++ liveGrantsFrom (List.length (researchGrants st)) [e])%list;
        isLoading := isLoading st |}).
Proof.
  rewrite liveGrantsFrom_cons. unfold visitElement.
  change (Js.trim (Browser.textContent e)) with (candidateText e).
  change (Js.truthy (candidateText e)
          && (10 <? String.length (candidateText e))%nat
          && isResearchGrantText (candidateText e))
    with (survives (candidateText e)).
  destruct (survives (candidateText e)).
  - reflexivity.
  - unfold ret. rewrite app_nil_r. now destruct st.
Qed.

Lemma liveGrantsFrom_app_one (start : nat) (e : Browser.Element) (es : list Browser.Element) :
  liveGrantsFrom start (e :: es)
  = (liveGrantsFrom start [e]
     ++ liveGrantsFrom (start + List.length (liveGrantsFrom start [e])) es)%list.
Proof.
  rewrite !liveGrantsFrom_cons.
  destruct (survives (candidateText e)); simpl.
  - now replace (start + 1) with (S start) by lia.
  - now rewrite Nat.add_0_r.
Qed.

(** The whole [forEach]: the list grows by the surviving elements'
    records, numbered on from its length. *)
Lemma forEach_visitElement_run (es : list Browser.Element) (st : State) :
  forEach es visitElement st
  = (Normal tt,
     {| expertUrl := expertUrl st;
        researchGrants :=
          (researchGrants st
           ++ liveGrantsFrom (List.length (researchGrants st)) es)%list;
        isLoading := isLoading st |}).
Proof.
  revert st; induction es as [|e es IH]; intros st.
  - simpl. unfold ret, liveGrantsFrom. simpl. rewrite app_nil_r. now destruct st.
  - simpl forEach. unfold bind. rewrite visitElement_run, IH. simpl.
    rewrite (liveGrantsFrom_app_one _ e es), length_app, app_assoc.
    reflexivity.
Qed.

Lemma scanSelectors_run (doc : Browser.Document) (sels : list string) (st : State) :
  scanSelectors doc sels st = forEach (matchedElements doc sels) visitElement st.
Proof.
  induction sels as [|sel sels IH]; simpl; [reflexivity|].
  now destruct (0 <? List.length (doc sel))%nat.
Qed.

Lemma parseResearchGrants_run (host : Browser.Host) (html : string)
      (doc : Browser.Document) (st : State) :
  Browser.parseFromString host html = Normal doc ->
  parseResearchGrants host html st
  = (Normal tt,
     {| expertUrl := expertUrl st;
        researchGrants := grantsOfDocument doc;
        isLoading := isLoading st |}).
Proof.
  intros P. unfold parseResearchGrants, bind, lift. rewrite P.
  cbn [setResearchGrants]. rewrite scanSelectors_run, forEach_visitElement_run.
  cbn [getResearchGrants researchGrants expertUrl isLoading List.length app].
  unfold grantsOfDocument, liveGrants.
  destruct (liveGrantsFrom 0 (matchedElements doc possibleSelectors)); reflexivity.
Qed.

Lemma parseResearchGrants_throw (host : Browser.Host) (html e : string) (st : State) :
  Browser.parseFromString host html = Throw e ->
  parseResearchGrants host html st = (Throw e, st).
Proof. intros P. unfold parseResearchGrants, bind, lift. now rewrite P. Qed.

End GrantsRuns.

Section GrantsFetch.
Import Grants.

Lemma fetchResearchGrants_run (host : Browser.Host) (st : State) :
  fetchResearchGrants host st
  = (Normal tt,
     {| expertUrl := expertUrl st;
        researchGrants :=
          match Browser.fetchedDocument host (requestUrl host st) with
          | Some doc => grantsOfDocument doc
          | None => fallbackResearchGrants
          end;
        isLoading := false |}).
Proof.
  unfold fetchResearchGrants, Browser.fetchedDocument, requestUrl.
  unfold bind at 1. cbn [setIsLoading].
  unfold tryFinally, tryCatch.
  unfold bind at 1. cbn [getExpertUrl expertUrl].
  unfold bind at 1. unfold lift at 1.
  destruct (Browser.fetch host _) as [response|e]; [|reflexivity].
  unfold bind at 1.
  destruct (Browser.ok response); cbn [negb]; [|reflexivity].
  unfold ret at 1. unfold bind at 1. unfold lift at 1.
  destruct (Browser.text response) as [html|e]; [|reflexivity].
  destruct (Browser.parseFromString host html) as [doc|e] eqn:P.
  - now rewrite (parseResearchGrants_run _ _ _ _ P).
  - now rewrite (parseResearchGrants_throw _ _ _ _ P).
Qed.

Lemma matchedElements_first (doc : Browser.Document)
      (before : list string) (sel : string) (after : list string) :
  (forall s, In s before -> doc s = []) -> doc sel <> [] ->
  matchedElements doc (before ++ sel :: after)%list = doc sel.
Proof.
  intros B N. induction before as [|b before IH]; simpl.
  - destruct (doc sel); [congruence | reflexivity].
  - rewrite (B b) by now left. simpl. apply IH. intros s Hs. apply B. now right.
Qed.

Lemma matchedElements_none (doc : Browser.Document) (sels : list string) :
  (forall s, In s sels -> doc s = []) -> matchedElements doc sels = [].
Proof.
  intros B. induction sels as [|b sels IH]; simpl; [reflexivity|].
  rewrite (B b) by now left. simpl. apply IH. intros s Hs. apply B. now right.
Qed.

(** The visited element set is the match list of one configured selector,
    or empty. *)
Lemma matchedElements_source (doc : Browser.Document) (sels : list string) :
  matchedElements doc sels = []
  \/ exists sel, In sel sels /\ matchedElements doc sels = doc sel.
Proof.
  induction sels as [|b sels IH]; simpl; [now left|].
  destruct (0 <? List.length (doc b))%nat.
  - right. exists b. split; [now left | reflexivity].
  - destruct IH as [IH | [sel [Hin IH]]]; [now left|].
    right. exists sel. split; [now right | assumption].
Qed.

End GrantsFetch.

(** ** Running the publications methods *)

Section PublicationsRuns.
Import Publications.

Lemma length_mapIndexed {A B : Type} (f : A -> nat -> B) (xs : list A) (i : nat) :
  List.length (mapIndexed f xs i) = List.length xs.
Proof. revert i; induction xs as [|x xs IH]; intros i; simpl; auto. Qed.

Lemma parsePublications_run (host : Browser.Host) (html : string)
      (doc : Browser.Document) (st : State) :
  Browser.parseFromString host html = Normal doc ->
  parsePublications host html st
  = (Normal tt,
     {| scholarUrl := scholarUrl st;
        publications := publicationsOfDocument doc;
        isLoading := isLoading st |}).
Proof.
  intros P. unfold parsePublications, bind, lift. rewrite P.
  cbn [setPublications getPublications publications scholarUrl isLoading].
  unfold publicationsOfDocument, livePublications.
  set (live := mapIndexed toPublication _ 0).
  destruct (Nat.ltb_spec (List.length live) 5) as [L|L].
  - rewrite orb_true_r. reflexivity.
  - replace (List.length live =? 0)%nat with false
      by (symmetry; apply Nat.eqb_neq; lia).
    reflexivity.
Qed.

Lemma parsePublications_throw (host : Browser.Host) (html e : string) (st : State) :
  Browser.parseFromString host html = Throw e ->
  parsePublications host html st = (Throw e, st).
Proof. intros P. unfold parsePublications, bind, lift. now rewrite P. Qed.

Lemma fetchPublications_run (host : Browser.Host) (st : State) :
  fetchPublications host st
  = (Normal tt,
     {| scholarUrl := scholarUrl st;
        publications :=
          match Browser.fetchedDocument host (requestUrl host st) with
          | Some doc => publicationsOfDocument doc
          | None => fallbackPublications
          end;
        isLoading := false |}).
Proof.
  unfold fetchPublications, Browser.fetchedDocument, requestUrl.
  unfold bind at 1. cbn [setIsLoading].
  unfold tryFinally, tryCatch.
  unfold bind at 1. cbn [getScholarUrl scholarUrl].
  unfold bind at 1. unfold lift at 1.
  destruct (Browser.fetch host _) as [response|e]; [|reflexivity].
  unfold bind at 1.
  destruct (Browser.ok response); cbn [negb]; [|reflexivity].
  unfold ret at 1. unfold bind at 1. unfold lift at 1.
  destruct (Browser.text response) as [html|e]; [|reflexivity].
  destruct (Browser.parseFromString host html) as [doc|e] eqn:P.
  - now rewrite (parsePublications_run _ _ _ _ P).
  - now rewrite (parsePublications_throw _ _ _ _ P).
Qed.

Lemma findPublicationElements_first (doc : Browser.Document)
      (before : list string) (sel : string) (after : list string)
      (current : list Browser.Element) :
  (forall s, In s before -> doc s = []) -> doc sel <> [] ->
  findPublicationElements doc (before ++ sel :: after)%list current = doc sel.
Proof.
  intros B N. revert current. induction before as [|b before IH]; intros current; simpl.
  - destruct (doc sel); [congruence | reflexivity].
  - rewrite (B b) by now left. simpl. apply IH. intros s Hs. apply B. now right.
Qed.

Lemma findPublicationElements_none (doc : Browser.Document) (sels : list string) :
  (forall s, In s sels -> doc s = []) -> findPublicationElements doc sels [] = [].
Proof.
  intros B. assert (G : forall current, current = [] ->
                        findPublicationElements doc sels current = []).
  { induction sels as [|b sels IH]; intros current C; simpl; [assumption|].
    rewrite (B b) by now left. simpl. apply IH; [|reflexivity].
    intros s Hs. apply B. now right. }
  now apply G.
Qed.

(** The mapped element set is the match list of one configured selector,
    or empty. *)
Lemma findPublicationElements_source (doc : Browser.Document) (sels : list string) :
  findPublicationElements doc sels [] = []
  \/ exists sel, In sel sels /\ findPublicationElements doc sels [] = doc sel.
Proof.
  assert (G : forall current,
             findPublicationElements doc sels current = current
             \/ findPublicationElements doc sels current = []
             \/ exists sel, In sel sels
                            /\ findPublicationElements doc sels current = doc sel).
  { induction sels as [|b sels IH]; intros current; simpl; [now left|].
    destruct (doc b) as [|x xs] eqn:E; simpl.
    - destruct (IH []) as [H | [H | [sel [Hin H]]]]; auto.
      right. right. exists sel. auto.
    - right. right. exists b. rewrite E. auto. }
  destruct (G []) as [H | [H | H]]; auto.
Qed.

End PublicationsRuns.

(** ** Fallback and thresholds *)

Section Fallback.

Lemma liveGrants_no_kept (es : list Browser.Element) :
  Grants.keptTexts es = [] -> Grants.liveGrants es = [].
Proof. unfold Grants.liveGrants, Grants.liveGrantsFrom. now intros ->. Qed.

End Fallback.

(** C1.  When no configured selector yields a surviving record, the parse
    leaves exactly the fixed fallback: for grants, when every selector's
    elements are all discarded (or there are none); for publications, when
    no selector matches an element.  The grants fallback has 7 records, the
    publications fallback 10. *)
Theorem C1_no_record_gives_fallback
        (host : Browser.Host) (html : string) (doc : Browser.Document)
        (gst : Grants.State) (pst : Publications.State) :
  Browser.parseFromString host html = Normal doc ->
  ((forall sel, In sel Grants.possibleSelectors -> Grants.keptTexts (doc sel) = []) ->
   Grants.researchGrants (fieldsAfter (Grants.parseResearchGrants host html) gst)
   = Grants.fallbackResearchGrants)
  /\ ((forall sel, In sel Publications.selectors -> doc sel = []) ->
      Publications.publications (fieldsAfter (Publications.parsePublications host html) pst)
      = Publications.fallbackPublications)
  /\ List.length Grants.fallbackResearchGrants = 7
  /\ List.length Publications.fallbackPublications = 10.
Proof.
  intros P. unfold fieldsAfter.
  rewrite (parseResearchGrants_run _ _ _ _ P), (parsePublications_run _ _ _ _ P).
  cbn [snd Grants.researchGrants Publications.publications].
  repeat split.
  - intros H. unfold Grants.grantsOfDocument.
    destruct (matchedElements_source doc Grants.possibleSelectors) as [-> | [sel [Hin ->]]].
    + reflexivity.
    + now rewrite (liveGrants_no_kept _ (H sel Hin)).
  - intros H. unfold Publications.publicationsOfDocument.
    now rewrite (findPublicationElements_none _ _ H).
Qed.

(** A page whose matched elements are all discarded, and an empty page. *)
Lemma C1_witness :
  Grants.researchGrants
    (fieldsAfter (Grants.parseResearchGrants (Demo.serving Demo.chromePage) "<html></html>")
                 Grants.constructor)
  = Grants.fallbackResearchGrants
  /\ Publications.publications
       (fieldsAfter (Publications.parsePublications (Demo.serving Demo.blank) "")
                    Publications.constructor)
     = Publications.fallbackPublications.
Proof.
  split.
  - refine (proj1 (C1_no_record_gives_fallback (Demo.serving Demo.chromePage) "<html></html>"
                     Demo.chromePage Grants.constructor Publications.constructor eq_refl) _).
    intros sel H. simpl in H.
    repeat (destruct H as [<- | H]; [reflexivity|]). contradiction.
  - refine (proj1 (proj2 (C1_no_record_gives_fallback (Demo.serving Demo.blank) ""
                     Demo.blank Grants.constructor Publications.constructor eq_refl)) _).
    intros sel H. reflexivity.
Defined.

(** C2.  For publications, a parse that builds between 1 and 4 records
    leaves the 10-record fallback instead of them, and a parse that builds 5
    or more leaves the records it built. *)
Theorem C2_publications_threshold
        (host : Browser.Host) (html : string) (doc : Browser.Document)
        (st : Publications.State) :
  Browser.parseFromString host html = Normal doc ->
  let live :=
    Publications.livePublications
      (Publications.findPublicationElements doc Publications.selectors []) in
  let result :=
    Publications.publications (fieldsAfter (Publications.parsePublications host html) st) in
  (1 <= List.length live <= 4 ->
   result = Publications.fallbackPublications /\ List.length result = 10)
  /\ (5 <= List.length live -> result = live).
Proof.
  intros P live result. subst result. unfold fieldsAfter.
  rewrite (parsePublications_run _ _ _ _ P).
  cbn [snd Publications.publications]. unfold Publications.publicationsOfDocument.
  fold live. split; intros H.
  - destruct (Nat.ltb_spec (List.length live) 5); [split; reflexivity | lia].
  - destruct (Nat.ltb_spec (List.length live) 5); [lia | reflexivity].
Qed.

(** Four rows give the fallback, five rows are kept. *)
Lemma C2_witness :
  Publications.publications
    (fieldsAfter (Publications.parsePublications (Demo.serving (Demo.scholarPage 4)) "")
                 Publications.constructor)
  = Publications.fallbackPublications
  /\ Publications.publications
       (fieldsAfter (Publications.parsePublications (Demo.serving (Demo.scholarPage 5)) "")
                    Publications.constructor)
     = Publications.livePublications (repeat Demo.row1 5).
Proof.
  split.
  - refine (proj1 (proj1 (C2_publications_threshold (Demo.serving (Demo.scholarPage 4)) ""
                     (Demo.scholarPage 4) Publications.constructor eq_refl) _)).
    vm_compute. lia.
  - refine (proj2 (C2_publications_threshold (Demo.serving (Demo.scholarPage 5)) ""
                     (Demo.scholarPage 5) Publications.constructor eq_refl) _).
    vm_compute. lia.
Defined.

(** ** Titles *)

Section Titles.

Lemma extractTitle_first_line (text line0 : string) :
  firstNonEmptyLine text = Some line0 ->
  Grants.extractTitle text
  = Js.substring (Js.trim line0) 0 100
    ++ (if (100 <? String.length line0)%nat then "..." else "").
Proof.
  unfold firstNonEmptyLine, Grants.extractTitle.
  destruct (Grants.titleLines text) as [|l ls]; simpl; [discriminate|].
  now intros [= ->].
Qed.

Lemma truncateTitle_rule (title : string) :
  titleRuleAsStated 150 title (Publications.truncateTitle title).
Proof.
  unfold titleRuleAsStated, Publications.truncateTitle.
  destruct (Nat.ltb_spec 150 (String.length title)); split; intros; try lia; reflexivity.
Qed.

End Titles.

(** C3 (as the code has it).  Grants: with L the first line of the text
    that holds a character other than white space and T that line trimmed,
    a T longer than 100 characters gives the first 100 characters of T
    followed by "...", and an L of at most 100 characters gives T with no
    marker.  Publications: the title text of the element (the trimmed text
    of its title link; without one the trimmed first line of its text, or
    "Unknown Title" when that is empty) is cut to 150 characters followed by
    "..." when it is longer than 150, and is the title as it stands
    otherwise. *)
Theorem C3_title_truncation :
  (forall text line0,
      firstNonEmptyLine text = Some line0 ->
      (100 < String.length (Js.trim line0) ->
       Grants.extractTitle text = Js.substring (Js.trim line0) 0 100 ++ "..."
       /\ String.length (Js.substring (Js.trim line0) 0 100) = 100)
      /\ (String.length line0 <= 100 ->
          Grants.extractTitle text = Js.trim line0))
  /\ (forall element index,
         titleRuleAsStated 150
           (Publications.rawTitle element (Publications.titleElementOf element))
           (Publications.title (Publications.toPublication element index))).
Proof.
  split.
  - intros text line0 H. rewrite (extractTitle_first_line _ _ H).
    pose proof (length_trim_le line0) as T. split; intros L.
    + destruct (Nat.ltb_spec 100 (String.length line0)); [|lia].
      split; [reflexivity | apply length_substring_long; lia].
    + destruct (Nat.ltb_spec 100 (String.length line0)); [lia|].
      rewrite substring_short by lia. apply append_nil_r.
  - intros element index. apply truncateTitle_rule.
Qed.

(** A first line of 135 characters, and a short one with a space at its end. *)
Lemma C3_witness :
  Grants.extractTitle Demo.longText
  = "Coupled Hybrid Feature Extraction And Classification Of Radar Reflectivity Images For Convective-str..."
  /\ Grants.extractTitle Demo.paddedText = "FRGS grant 2024".
Proof.
  split.
  - refine (eq_trans
              (proj1 (proj1 (proj1 C3_title_truncation Demo.longText _ eq_refl) _))
              eq_refl).
    vm_compute. lia.
  - refine (eq_trans
              (proj2 (proj1 C3_title_truncation Demo.paddedText _ eq_refl) _)
              eq_refl).
    vm_compute. lia.
Defined.

(** The rule of C3 read on the line itself fails on a first line with a
    space at its end, which is returned without that space; and a
    publication row without a title link is titled by its very first line,
    here empty, not by its first non-empty one. *)
Lemma C3_counterexample :
  (firstNonEmptyLine Demo.paddedText = Some "FRGS grant 2024 "
   /\ ~ titleRuleAsStated 100 "FRGS grant 2024 " (Grants.extractTitle Demo.paddedText))
  /\ (firstNonEmptyLine (Browser.textContent Demo.bareRow) = Some "  Real title"
      /\ ~ titleRuleAsStated 150 "  Real title"
             (Publications.title (Publications.toPublication Demo.bareRow 0))).
Proof.
  split; (split; [reflexivity|]).
  - intros [_ H]. assert (L : String.length "FRGS grant 2024 " <= 100) by (simpl; lia).
    specialize (H L). vm_compute in H. discriminate.
  - intros [_ H]. assert (L : String.length "  Real title" <= 150) by (simpl; lia).
    specialize (H L). vm_compute in H. discriminate.
Qed.

(** On a first line whose length passes 100 only through the spaces at
    its end, the marker follows a title that was not cut. *)
Example extractTitle_padded_long_line :
  option_map String.length (firstNonEmptyLine Demo.longPaddedText) = Some 103
  /\ Grants.extractTitle Demo.longPaddedText
     = "Research grant: coupled hybrid feature extraction and classification of radar reflectivity images....".
Proof. split; reflexivity. Qed.

(** ** Classifiers *)

Section Classifiers.

Lemma includes_keyword_iff (text keyword : string) :
  Js.toLowerCase keyword = keyword ->
  Js.includes (Js.toLowerCase text) keyword = true <-> occursIgnoringCase keyword text.
Proof. intros H. rewrite <- H at 1. apply includes_toLowerCase_iff. Qed.

Lemma includes_keyword_false (text keyword : string) :
  Js.toLowerCase keyword = keyword ->
  ~ occursIgnoringCase keyword text ->
  Js.includes (Js.toLowerCase text) keyword = false.
Proof.
  intros H N. apply not_true_is_false. intros I. apply N.
  now apply includes_keyword_iff.
Qed.

End Classifiers.

(** C4.  The status of a grant text is a function of the text up to letter
    case.  A text in which "completed" occurs in any case is "Completed",
    whatever else occurs in it; otherwise a text in which "active",
    "ongoing" or one of the years 2020 to 2025 occurs is "Active"; any
    other text is "Unknown". *)
Theorem C4_status_precedence (text : string) :
  (occursIgnoringCase "completed" text -> Grants.extractStatus text = "Completed")
  /\ (~ occursIgnoringCase "completed" text ->
      (occursIgnoringCase "active" text
       \/ occursIgnoringCase "ongoing" text
       \/ exists year, In year Grants.recentYears /\ occursIgnoringCase year text) ->
      Grants.extractStatus text = "Active")
  /\ (~ occursIgnoringCase "completed" text ->
      ~ occursIgnoringCase "active" text ->
      ~ occursIgnoringCase "ongoing" text ->
      (forall year, In year Grants.recentYears -> ~ occursIgnoringCase year text) ->
      Grants.extractStatus text = "Unknown")
  /\ (forall text', Js.toLowerCase text' = Js.toLowerCase text ->
                    Grants.extractStatus text' = Grants.extractStatus text).
Proof.
  repeat split.
  - intros C. unfold Grants.extractStatus.
    now rewrite (proj2 (includes_keyword_iff text "completed" eq_refl) C).
  - intros NC A. unfold Grants.extractStatus.
    rewrite (includes_keyword_false text "completed" eq_refl NC).
    destruct A as [A | [A | [year [Hin A]]]].
    + now rewrite (proj2 (includes_keyword_iff text "active" eq_refl) A).
    + rewrite (proj2 (includes_keyword_iff text "ongoing" eq_refl) A).
      now rewrite orb_true_r.
    + destruct (Js.includes (Js.toLowerCase text) "active"
                || Js.includes (Js.toLowerCase text) "ongoing"); [reflexivity|].
      simpl in Hin.
      repeat (destruct Hin as [<- | Hin];
              [rewrite (proj2 (includes_keyword_iff text _ eq_refl) A);
               rewrite ?orb_true_r; reflexivity|]).
      contradiction.
  - intros NC NA NO NY. unfold Grants.extractStatus.
    rewrite (includes_keyword_false text "completed" eq_refl NC).
    rewrite (includes_keyword_false text "active" eq_refl NA).
    rewrite (includes_keyword_false text "ongoing" eq_refl NO).
    assert (Y : forall year, In year Grants.recentYears ->
                             Js.includes (Js.toLowerCase text) year = false).
    { intros year Hin. apply includes_keyword_false; [|now apply NY].
      simpl in Hin. repeat (destruct Hin as [<- | Hin]; [reflexivity|]). contradiction. }
    rewrite !Y by (simpl; auto 10). reflexivity.
  - intros text' H. unfold Grants.extractStatus. now rewrite H.
Qed.

(** Completion outranks a recent year and an activity word; case does not matter. *)
Lemma C4_witness :
  Grants.extractStatus "Project COMPLETED, 2024, still Active" = "Completed"
  /\ Grants.extractStatus "Project ONGOING" = "Active"
  /\ Grants.extractStatus "completed" = Grants.extractStatus "CoMpLeTeD".
Proof.
  split; [|split].
  - apply (proj1 (C4_status_precedence "Project COMPLETED, 2024, still Active")).
    exists "Project ", "COMPLETED", ", 2024, still Active". split; reflexivity.
  - apply (proj1 (proj2 (C4_status_precedence "Project ONGOING"))).
    + intros C. apply (includes_keyword_iff _ "completed" eq_refl) in C.
      vm_compute in C. discriminate.
    + right. left. exists "Project ", "ONGOING", "". split; reflexivity.
  - apply (proj2 (proj2 (proj2 (C4_status_precedence "CoMpLeTeD")))). reflexivity.
Defined.

(** C5.  The sample text "KPM, Autonomous Anomaly Detection in Streaming
    Data, (Ref: RACER/1/2019/ICT02/UITM//4), Role: Team Member." has type
    "RACER", although "kpm" occurs in it too and earlier, and status
    "Unknown": it holds "2019", which is not one of the years read as
    activity, and no word of completion or activity. *)
Theorem C5_racer_sample :
  Grants.extractType Demo.racerText = "RACER"
  /\ Grants.extractStatus Demo.racerText = "Unknown"
  /\ Js.includes (Js.toLowerCase Demo.racerText) "kpm" = true
  /\ Js.startsWith Demo.racerText "KPM" = true
  /\ Js.includes (Js.toLowerCase Demo.racerText) "frgs" = false
  /\ Js.includes Demo.racerText "2019" = true
  /\ forallb (fun kw => negb (Js.includes (Js.toLowerCase Demo.racerText) kw))
             ("completed" :: "active" :: "ongoing" :: Grants.recentYears) = true.
Proof. repeat split; vm_compute; reflexivity. Qed.

(** ** Numbering and order *)

Section Numbering.

Lemma map_mapIndexed_seq {A B : Type} (f : A -> nat -> B) (g : B -> nat)
      (xs : list A) (i : nat) :
  (forall x j, g (f x j) = j + 1) ->
  map g (mapIndexed f xs i) = seq (i + 1) (List.length xs).
Proof.
  intros G. revert i; induction xs as [|x xs IH]; intros i; simpl; [reflexivity|].
  rewrite G, IH. now replace (S i + 1) with (S (i + 1)) by lia.
Qed.

Lemma nth_error_mapIndexed {A B : Type} (f : A -> nat -> B)
      (xs : list A) (i k : nat) (x : A) :
  nth_error xs k = Some x ->
  nth_error (mapIndexed f xs i) k = Some (f x (i + k)).
Proof.
  revert i k; induction xs as [|y xs IH]; intros i k H.
  - destruct k; discriminate.
  - destruct k as [|k]; simpl in *.
    + injection H as ->. now rewrite Nat.add_0_r.
    + rewrite (IH (S i) k H). f_equal. f_equal. lia.
Qed.

Lemma ids_liveGrantsFrom (start : nat) (es : list Browser.Element) :
  map Grants.id (Grants.liveGrantsFrom start es)
  = seq (start + 1) (List.length (Grants.liveGrantsFrom start es)).
Proof.
  unfold Grants.liveGrantsFrom. rewrite length_mapIndexed.
  now apply map_mapIndexed_seq.
Qed.

Lemma details_liveGrantsFrom (start : nat) (es : list Browser.Element) :
  map Grants.details (Grants.liveGrantsFrom start es) = Grants.keptTexts es.
Proof.
  unfold Grants.liveGrantsFrom. generalize (Grants.keptTexts es); intros ts.
  revert start; induction ts as [|t ts IH]; intros start; simpl; [reflexivity|].
  now rewrite IH.
Qed.

Lemma ids_livePublications (es : list Browser.Element) :
  map Publications.id (Publications.livePublications es)
  = seq 1 (List.length (Publications.livePublications es)).
Proof.
  unfold Publications.livePublications. rewrite length_mapIndexed.
  now apply (map_mapIndexed_seq Publications.toPublication Publications.id es 0).
Qed.

Lemma ids_grantsOfDocument (doc : Browser.Document) :
  map Grants.id (Grants.grantsOfDocument doc)
  = seq 1 (List.length (Grants.grantsOfDocument doc)).
Proof.
  unfold Grants.grantsOfDocument, Grants.liveGrants.
  pose proof (ids_liveGrantsFrom 0 (Grants.matchedElements doc Grants.possibleSelectors)) as H.
  destruct (Grants.liveGrantsFrom 0 _); [reflexivity | exact H].
Qed.

Lemma ids_publicationsOfDocument (doc : Browser.Document) :
  map Publications.id (Publications.publicationsOfDocument doc)
  = seq 1 (List.length (Publications.publicationsOfDocument doc)).
Proof.
  unfold Publications.publicationsOfDocument.
  destruct (_ <? 5)%nat; [reflexivity | apply ids_livePublications].
Qed.

Lemma grantsOfDocument_cases (doc : Browser.Document) :
  Grants.grantsOfDocument doc = Grants.fallbackResearchGrants
  \/ Grants.grantsOfDocument doc
     = Grants.liveGrants (Grants.matchedElements doc Grants.possibleSelectors).
Proof.
  unfold Grants.grantsOfDocument.
  destruct (Grants.liveGrants _); [now left | now right].
Qed.

Lemma publicationsOfDocument_cases (doc : Browser.Document) :
  Publications.publicationsOfDocument doc = Publications.fallbackPublications
  \/ Publications.publicationsOfDocument doc
     = Publications.livePublications
         (Publications.findPublicationElements doc Publications.selectors []).
Proof.
  unfold Publications.publicationsOfDocument.
  destruct (_ <? 5)%nat; [now left | now right].
Qed.

End Numbering.

(** C6.  After a fetch of either widget the ids of the records are
    1, 2, ..., n in list order, hence distinct.  After a parse the same
    holds, and the records are the fallback in its own order or follow the
    matched elements: the grants carry the texts of the surviving elements
    in element order, and the k-th publication is the record of the k-th
    element. *)
Theorem C6_ids_contiguous (host : Browser.Host) :
  (forall gst,
      let gs := Grants.researchGrants (fieldsAfter (Grants.fetchResearchGrants host) gst) in
      map Grants.id gs = seq 1 (List.length gs) /\ NoDup (map Grants.id gs))
  /\ (forall pst,
         let ps := Publications.publications
                     (fieldsAfter (Publications.fetchPublications host) pst) in
         map Publications.id ps = seq 1 (List.length ps)
         /\ NoDup (map Publications.id ps))
  /\ (forall html doc gst,
         Browser.parseFromString host html = Normal doc ->
         let gs := Grants.researchGrants
                     (fieldsAfter (Grants.parseResearchGrants host html) gst) in
         map Grants.id gs = seq 1 (List.length gs)
         /\ (gs = Grants.fallbackResearchGrants
             \/ map Grants.details gs
                = Grants.keptTexts (Grants.matchedElements doc Grants.possibleSelectors)))
  /\ (forall html doc pst,
         Browser.parseFromString host html = Normal doc ->
         let ps := Publications.publications
                     (fieldsAfter (Publications.parsePublications host html) pst) in
         map Publications.id ps = seq 1 (List.length ps)
         /\ (ps = Publications.fallbackPublications
             \/ forall k element,
                 nth_error (Publications.findPublicationElements
                              doc Publications.selectors []) k = Some element ->
                 nth_error ps k = Some (Publications.toPublication element k))).
Proof.
  repeat apply conj.
  - intros gst gs. subst gs. unfold fieldsAfter. rewrite fetchResearchGrants_run.
    cbn [snd Grants.researchGrants].
    assert (H : forall l, map Grants.id l = seq 1 (List.length l) ->
                          map Grants.id l = seq 1 (List.length l) /\ NoDup (map Grants.id l)).
    { intros l E. split; [exact E | rewrite E; apply seq_NoDup]. }
    apply H. destruct (Browser.fetchedDocument host _);
      [apply ids_grantsOfDocument | reflexivity].
  - intros pst ps. subst ps. unfold fieldsAfter. rewrite fetchPublications_run.
    cbn [snd Publications.publications].
    assert (H : forall l, map Publications.id l = seq 1 (List.length l) ->
                          map Publications.id l = seq 1 (List.length l)
                          /\ NoDup (map Publications.id l)).
    { intros l E. split; [exact E | rewrite E; apply seq_NoDup]. }
    apply H. destruct (Browser.fetchedDocument host _);
      [apply ids_publicationsOfDocument | reflexivity].
  - intros html doc gst P gs. subst gs. unfold fieldsAfter.
    rewrite (parseResearchGrants_run _ _ _ _ P). cbn [snd Grants.researchGrants].
    split; [apply ids_grantsOfDocument|].
    destruct (grantsOfDocument_cases doc) as [-> | ->]; [now left | right].
    apply details_liveGrantsFrom.
  - intros html doc pst P ps. subst ps. unfold fieldsAfter.
    rewrite (parsePublications_run _ _ _ _ P). cbn [snd Publications.publications].
    split; [apply ids_publicationsOfDocument|].
    destruct (publicationsOfDocument_cases doc) as [-> | ->]; [now left | right].
    intros k element H. unfold Publications.livePublications.
    now rewrite (nth_error_mapIndexed _ _ 0 k element H).
Qed.

(** Two surviving table rows, and six Scholar rows. *)
Lemma C6_witness :
  map Grants.id
      (Grants.researchGrants
         (fieldsAfter (Grants.parseResearchGrants (Demo.serving Demo.grantsPage) "")
                      Grants.constructor))
  = [1; 2]
  /\ map Publications.id
         (Publications.publications
            (fieldsAfter (Publications.parsePublications (Demo.serving (Demo.scholarPage 6)) "")
                         Publications.constructor))
     = [1; 2; 3; 4; 5; 6].
Proof.
  split.
  - exact (proj1 (proj1 (proj2 (proj2 (C6_ids_contiguous (Demo.serving Demo.grantsPage))))
                        "" Demo.grantsPage Grants.constructor eq_refl)).
  - exact (proj1 (proj2 (proj2 (proj2 (C6_ids_contiguous (Demo.serving (Demo.scholarPage 6)))))
                        "" (Demo.scholarPage 6) Publications.constructor eq_refl)).
Defined.

(** ** Selector priority *)

(** C7.  The selectors are tried in list order and the first one with a
    match is the only one used: when every selector before [sel] matches
    nothing and [sel] matches an element, the records are built from the
    elements of [sel] alone, whatever the later selectors match; when all of
    them are discarded (grants) or they are under five (publications) the
    result is the fallback, not the records of a later selector. *)
Theorem C7_first_matching_selector_only
        (host : Browser.Host) (html : string) (doc : Browser.Document)
        (before : list string) (sel : string) (after : list string) :
  Browser.parseFromString host html = Normal doc ->
  (forall s, In s before -> doc s = []) ->
  doc sel <> [] ->
  (Grants.possibleSelectors = (before ++ sel :: after)%list ->
   forall gst,
     Grants.researchGrants (fieldsAfter (Grants.parseResearchGrants host html) gst)
     = match Grants.liveGrants (doc sel) with
       | [] => Grants.fallbackResearchGrants
       | live => live
       end)
  /\ (Publications.selectors = (before ++ sel :: after)%list ->
      forall pst,
        Publications.publications
          (fieldsAfter (Publications.parsePublications host html) pst)
        = if (List.length (Publications.livePublications (doc sel)) <? 5)%nat
          then Publications.fallbackPublications
          else Publications.livePublications (doc sel)).
Proof.
  intros P B N. split; intros S st; unfold fieldsAfter.
  - rewrite (parseResearchGrants_run _ _ _ _ P). cbn [snd Grants.researchGrants].
    unfold Grants.grantsOfDocument. now rewrite S, (matchedElements_first _ _ _ _ B N).
  - rewrite (parsePublications_run _ _ _ _ P). cbn [snd Publications.publications].
    unfold Publications.publicationsOfDocument.
    now rewrite S, (findPublicationElements_first _ _ _ _ _ B N).
Qed.

(** The navigation items win over the grant rows of a later selector. *)
Lemma C7_witness :
  Grants.researchGrants
    (fieldsAfter (Grants.parseResearchGrants (Demo.serving Demo.menuPage) "")
                 Grants.constructor)
  = Grants.fallbackResearchGrants
  /\ Publications.publications
       (fieldsAfter (Publications.parsePublications (Demo.serving (Demo.scholarPage 5)) "")
                    Publications.constructor)
     = Publications.livePublications (repeat Demo.row1 5).
Proof.
  split.
  - refine (proj1 (C7_first_matching_selector_only
                     (Demo.serving Demo.menuPage) "" Demo.menuPage
                     [".research-item"] ".grant-item"
                     ["table tr"; ".list-item"; ".research-list li"]
                     eq_refl _ _) eq_refl Grants.constructor).
    + intros s [<- | []]. reflexivity.
    + discriminate.
  - refine (proj2 (C7_first_matching_selector_only
                     (Demo.serving (Demo.scholarPage 5)) "" (Demo.scholarPage 5)
                     [] ".gsc_a_tr"
                     [".gsc_a_t"; ".gsc_a_at"; "tr[data-rid]"; ".gsc_a_tc"]
                     eq_refl _ _) eq_refl Publications.constructor).
    + intros s [].
    + discriminate.
Defined.

(** ** The grants filter *)

Section Filter.

Lemma truthy_of_length (text : string) :
  0 < String.length text -> Js.truthy text = true.
Proof. destruct text; simpl; [lia | reflexivity]. Qed.

Lemma isResearchGrantText_iff (text : string) :
  Grants.isResearchGrantText text = true
  <-> exists keyword, In keyword Grants.researchKeywords
                      /\ occursIgnoringCase keyword text.
Proof.
  unfold Grants.isResearchGrantText, Js.some. rewrite existsb_exists.
  split; intros [keyword [Hin H]]; exists keyword; split; auto;
    now apply includes_toLowerCase_iff.
Qed.

(** The test of [visitElement], read as the two conditions. *)
Lemma survives_iff (text : string) :
  Grants.survives text = true
  <-> 10 < String.length text
      /\ exists keyword, In keyword Grants.researchKeywords
                         /\ occursIgnoringCase keyword text.
Proof.
  unfold Grants.survives.
  rewrite !andb_true_iff, Nat.ltb_lt, isResearchGrantText_iff. split.
  - intros [[_ L] K]. now split.
  - intros [L K]. repeat split; auto. apply truthy_of_length. lia.
Qed.

Lemma survives_false_iff (text : string) :
  Grants.survives text = false
  <-> String.length text <= 10
      \/ forall keyword, In keyword Grants.researchKeywords ->
                         ~ occursIgnoringCase keyword text.
Proof.
  rewrite <- not_true_iff_false, survives_iff. split.
  - intros N. destruct (Nat.le_gt_cases (String.length text) 10) as [L|L]; [now left|].
    right. intros keyword Hin O. apply N. split; [exact L | now exists keyword].
  - intros [L | K] [L' [keyword [Hin O]]]; [lia | exact (K keyword Hin O)].
Qed.

End Filter.

(** C8.  For a matched element the candidate is its trimmed text.  It is
    discarded, leaving the list as it was, exactly when it has 10
    characters or fewer or no configured keyword occurs in it in any case;
    otherwise one record is appended, holding the text and the next id.
    Over an element list the records appended are those of the surviving
    candidates, one each and in order. *)
Theorem C8_grants_filter (element : Browser.Element) (st : Grants.State) :
  let text := Js.trim (Browser.textContent element) in
  let before := Grants.researchGrants st in
  let result := Grants.researchGrants (fieldsAfter (Grants.visitElement element) st) in
  (String.length text <= 10
   \/ (forall keyword, In keyword Grants.researchKeywords ->
                       ~ occursIgnoringCase keyword text) ->
   result = before)
  /\ (10 < String.length text ->
      (exists keyword, In keyword Grants.researchKeywords
                       /\ occursIgnoringCase keyword text) ->
      result = (before ++ [Grants.grantOf (List.length before + 1) text])%list)
  /\ (result = before ->
      String.length text <= 10
      \/ forall keyword, In keyword Grants.researchKeywords ->
                         ~ occursIgnoringCase keyword text)
  /\ (forall elements,
         map Grants.details
             (Grants.researchGrants (fieldsAfter (forEach elements Grants.visitElement) st))
         = (map Grants.details before
            ++ filter Grants.survives
                      (map (fun e => Js.trim (Browser.textContent e)) elements))%list).
Proof.
  intros text before result. subst result. unfold fieldsAfter.
  rewrite visitElement_run. cbn [snd Grants.researchGrants].
  rewrite liveGrantsFrom_cons. fold before.
  change (Grants.candidateText element) with text.
  repeat apply conj.
  - intros D. apply survives_false_iff in D. rewrite D.
    unfold Grants.liveGrantsFrom. simpl. apply app_nil_r.
  - intros L K. rewrite (proj2 (survives_iff text) (conj L K)). reflexivity.
  - intros E. apply survives_false_iff.
    destruct (Grants.survives text); [|reflexivity].
    apply (f_equal (@List.length _)) in E. rewrite length_app in E. simpl in E. lia.
  - intros elements. rewrite forEach_visitElement_run. cbn [snd Grants.researchGrants].
    rewrite map_app, details_liveGrantsFrom. reflexivity.
Qed.

(** An off-topic item is dropped; a grant line is kept, trimmed. *)
Lemma C8_witness :
  Grants.researchGrants
    (fieldsAfter (Grants.visitElement (Demo.leaf " Home page link ")) Grants.constructor)
  = []
  /\ Grants.researchGrants
       (fieldsAfter (Grants.visitElement (Demo.leaf "  FRGS grant 2024  ")) Grants.constructor)
     = [Grants.grantOf 1 "FRGS grant 2024"].
Proof.
  split.
  - apply (proj1 (C8_grants_filter (Demo.leaf " Home page link ") Grants.constructor)).
    right. intros keyword Hin O.
    apply includes_toLowerCase_iff in O. simpl in Hin.
    repeat (destruct Hin as [<- | Hin]; [vm_compute in O; discriminate|]).
    contradiction.
  - apply (proj1 (proj2 (C8_grants_filter (Demo.leaf "  FRGS grant 2024  ")
                                          Grants.constructor))).
    + vm_compute. lia.
    + exists "grant". split; [simpl; auto|].
      exists "FRGS ", "grant", " 2024". split; reflexivity.
Defined.

(** ** All live or all fallback *)

(** C9.  After a fetch of either widget the records are the whole static
    fallback, or they are the live records of the document the request
    produced; nothing else is possible.  When the request fails, the
    response is not [ok], its text cannot be read, or the parser throws, the
    records are the whole fallback, and the method itself ends normally
    with the loading flag cleared. *)
Theorem C9_all_live_or_all_fallback (host : Browser.Host)
        (gst : Grants.State) (pst : Publications.State) :
  let gurl := Grants.requestUrl host gst in
  let purl := Publications.requestUrl host pst in
  let gs := Grants.researchGrants (fieldsAfter (Grants.fetchResearchGrants host) gst) in
  let ps := Publications.publications
              (fieldsAfter (Publications.fetchPublications host) pst) in
  (gs = Grants.fallbackResearchGrants
   \/ exists doc, Browser.fetchedDocument host gurl = Some doc
                  /\ gs = Grants.liveGrants
                            (Grants.matchedElements doc Grants.possibleSelectors))
  /\ (ps = Publications.fallbackPublications
      \/ exists doc, Browser.fetchedDocument host purl = Some doc
                     /\ ps = Publications.livePublications
                               (Publications.findPublicationElements
                                  doc Publications.selectors []))
  /\ (forall url,
         (forall e, Browser.fetch host url = Throw e ->
                    Browser.fetchedDocument host url = None)
         /\ (forall response, Browser.fetch host url = Normal response ->
                              Browser.ok response = false ->
                              Browser.fetchedDocument host url = None)
         /\ (forall response e, Browser.fetch host url = Normal response ->
                                Browser.text response = Throw e ->
                                Browser.fetchedDocument host url = None)
         /\ (forall response html e,
                Browser.fetch host url = Normal response ->
                Browser.text response = Normal html ->
                Browser.parseFromString host html = Throw e ->
                Browser.fetchedDocument host url = None))
  /\ (Browser.fetchedDocument host gurl = None -> gs = Grants.fallbackResearchGrants)
  /\ (Browser.fetchedDocument host purl = None -> ps = Publications.fallbackPublications)
  /\ fst (Grants.fetchResearchGrants host gst) = Normal tt
  /\ fst (Publications.fetchPublications host pst) = Normal tt
  /\ Grants.isLoading (fieldsAfter (Grants.fetchResearchGrants host) gst) = false
  /\ Publications.isLoading (fieldsAfter (Publications.fetchPublications host) pst) = false.
Proof.
  intros gurl purl gs ps. subst gs ps. unfold fieldsAfter.
  rewrite fetchResearchGrants_run, fetchPublications_run.
  cbn [fst snd Grants.researchGrants Publications.publications
       Grants.isLoading Publications.isLoading].
  fold gurl purl.
  repeat apply conj; try reflexivity.
  - destruct (Browser.fetchedDocument host gurl) as [doc|]; [|now left].
    destruct (grantsOfDocument_cases doc) as [-> | ->]; [now left|].
    right. now exists doc.
  - destruct (Browser.fetchedDocument host purl) as [doc|]; [|now left].
    destruct (publicationsOfDocument_cases doc) as [-> | ->]; [now left|].
    right. now exists doc.
  - intros url. unfold Browser.fetchedDocument. repeat apply conj.
    + now intros e ->.
    + now intros response -> ->.
    + intros response e -> ->. now destruct (Browser.ok response).
    + intros response html e -> -> ->. now destruct (Browser.ok response).
  - now intros ->.
  - now intros ->.
Qed.

(** No network, a 503 answer, and a parser that throws. *)
Lemma C9_witness :
  Grants.researchGrants
    (fieldsAfter (Grants.fetchResearchGrants Demo.offline) Grants.constructor)
  = Grants.fallbackResearchGrants
  /\ Publications.publications
       (fieldsAfter (Publications.fetchPublications Demo.refusing) Publications.constructor)
     = Publications.fallbackPublications
  /\ Grants.researchGrants
       (fieldsAfter (Grants.fetchResearchGrants Demo.unparsable) Grants.constructor)
     = Grants.fallbackResearchGrants.
Proof.
  split; [|split].
  - refine (proj1 (proj2 (proj2 (proj2
              (C9_all_live_or_all_fallback Demo.offline
                 Grants.constructor Publications.constructor)))) _).
    refine (proj1 (proj1 (proj2 (proj2
              (C9_all_live_or_all_fallback Demo.offline
                 Grants.constructor Publications.constructor))) _)
              "Failed to fetch" eq_refl).
  - refine (proj1 (proj2 (proj2 (proj2 (proj2
              (C9_all_live_or_all_fallback Demo.refusing
                 Grants.constructor Publications.constructor))))) _).
    refine (proj1 (proj2 (proj1 (proj2 (proj2
              (C9_all_live_or_all_fallback Demo.refusing
                 Grants.constructor Publications.constructor))) _))
              _ eq_refl eq_refl).
  - refine (proj1 (proj2 (proj2 (proj2
              (C9_all_live_or_all_fallback Demo.unparsable
                 Grants.constructor Publications.constructor)))) _).
    refine (proj2 (proj2 (proj2 (proj1 (proj2 (proj2
              (C9_all_live_or_all_fallback Demo.unparsable
                 Grants.constructor Publications.constructor))) _)))
              _ _ "DOMParser is not defined" eq_refl eq_refl eq_refl).
Defined.

(** ** The first-line branch of [extractTitle] *)

Section FirstLine.

Lemma trimStart_head (s : string) :
  Js.trimStart s = ""
  \/ exists c r, Js.trimStart s = String c r /\ Js.isWhiteSpace c = false.
Proof.
  induction s as [|c s IH]; simpl; [now left|].
  destruct (Js.isWhiteSpace c) eqn:E; [exact IH|]. right. now exists c, s.
Qed.

Lemma trimEnd_idempotent (s : string) : Js.trimEnd (Js.trimEnd s) = Js.trimEnd s.
Proof.
  induction s as [|c s IH]; simpl; [reflexivity|].
  destruct (Js.trimEnd s) as [|d r] eqn:E.
  - destruct (Js.isWhiteSpace c) eqn:W; simpl; [reflexivity | now rewrite W].
  - change (Js.trimEnd (String c (String d r)))
      with (match Js.trimEnd (String d r) with
            | "" => if Js.isWhiteSpace c then "" else String c ""
            | r' => String c r'
            end).
    now rewrite IH.
Qed.

Lemma trimEnd_visible_head (c : ascii) (s : string) :
  Js.isWhiteSpace c = false -> exists r, Js.trimEnd (String c s) = String c r.
Proof.
  intros W. simpl. destruct (Js.trimEnd s) as [|d r].
  - rewrite W. now exists "".
  - now exists (String d r).
Qed.

(** [trim] leaves a trimmed text alone: the candidate texts of
    [visitElement] are fixed points of [trim]. *)
Lemma trim_idempotent (s : string) : Js.trim (Js.trim s) = Js.trim s.
Proof.
  unfold Js.trim. destruct (trimStart_head s) as [-> | [c [r [-> W]]]]; [reflexivity|].
  destruct (trimEnd_visible_head c r W) as [r' E]. rewrite E.
  simpl Js.trimStart. rewrite W, <- E. apply trimEnd_idempotent.
Qed.

End FirstLine.

(** C10.  A text that is already trimmed and longer than 10 characters has
    a first non-empty line, so [extractTitle] titles it by that line and
    its last return, which would title the whole text, is not reached.  The
    texts that pass the grants filter are such texts. *)
Theorem C10_first_line_branch_taken :
  (forall text,
      Js.trim text = text -> 10 < String.length text ->
      exists line0 rest,
        Grants.titleLines text = line0 :: rest
        /\ Grants.extractTitle text
           = Js.substring (Js.trim line0) 0 100
             ++ (if (100 <? String.length line0)%nat then "..." else ""))
  /\ (forall element,
         Grants.survives (Grants.candidateText element) = true ->
         Js.trim (Grants.candidateText element) = Grants.candidateText element
         /\ 10 < String.length (Grants.candidateText element)).
Proof.
  split.
  - intros text T L.
    destruct (titleLines_trimmed text T) as [line0 [rest H]]; [lia|].
    exists line0, rest. split; [exact H|].
    apply extractTitle_first_line. unfold firstNonEmptyLine. now rewrite H.
  - intros element S. split; [apply trim_idempotent|].
    now apply survives_iff in S.
Qed.

(** A trimmed two-line grant text. *)
Lemma C10_witness :
  exists line0 rest,
    Grants.titleLines Demo.paddedText = line0 :: rest
    /\ Grants.extractTitle Demo.paddedText
       = Js.substring (Js.trim line0) 0 100
         ++ (if (100 <? String.length line0)%nat then "..." else "").
Proof.
  apply (proj1 C10_first_line_branch_taken Demo.paddedText).
  - reflexivity.
  - vm_compute. lia.
Defined.

(** * Further properties of the code *)

(** ** The type classifier *)

(** X1.  The type of a grant text depends on the text up to letter case
    only, and follows the order FRGS, RACER, LESTARI, KPM, International,
    National: the first of these words that occurs in the text, in any
    case, names the type, and a text with none of them is a
    "Research Grant". *)
Theorem extractType_precedence (text : string) :
  let has keyword := occursIgnoringCase keyword text in
  (has "frgs" -> Grants.extractType text = "FRGS")
  /\ (~ has "frgs" -> has "racer" -> Grants.extractType text = "RACER")
  /\ (~ has "frgs" -> ~ has "racer" -> has "lestari" ->
      Grants.extractType text = "LESTARI")
  /\ (~ has "frgs" -> ~ has "racer" -> ~ has "lestari" -> has "kpm" ->
      Grants.extractType text = "KPM")
  /\ (~ has "frgs" -> ~ has "racer" -> ~ has "lestari" -> ~ has "kpm" ->
      has "international" -> Grants.extractType text = "International")
  /\ (~ has "frgs" -> ~ has "racer" -> ~ has "lestari" -> ~ has "kpm" ->
      ~ has "international" -> has "national" ->
      Grants.extractType text = "National")
  /\ (~ has "frgs" -> ~ has "racer" -> ~ has "lestari" -> ~ has "kpm" ->
      ~ has "international" -> ~ has "national" ->
      Grants.extractType text = "Research Grant")
  /\ (forall text', Js.toLowerCase text' = Js.toLowerCase text ->
                    Grants.extractType text' = Grants.extractType text).
Proof.
  intros has. subst has. cbv beta. unfold Grants.extractType.
  repeat split;
    repeat match goal with
           | |- occursIgnoringCase ?k text -> _ =>
               let H := fresh "O" in
               intros H; rewrite (proj2 (includes_keyword_iff text k eq_refl) H)
           | |- ~ occursIgnoringCase ?k text -> _ =>
               let H := fresh "N" in
               intros H; rewrite (includes_keyword_false text k eq_refl H)
           end; try reflexivity.
  intros text' H. now rewrite H.
Qed.

(** A text that names an international grant of the KPM is a KPM grant,
    whatever the case of the words. *)
Lemma extractType_precedence_witness :
  Grants.extractType "International grant (kpm)" = "KPM"
  /\ Grants.extractType "INTERNATIONAL collaboration" = "International".
Proof.
  assert (N : forall k t, Js.toLowerCase k = k ->
                          Js.includes (Js.toLowerCase t) k = false ->
                          ~ occursIgnoringCase k t).
  { intros k t K F O. apply (includes_keyword_iff t k K) in O. congruence. }
  split.
  - apply (proj1 (proj2 (proj2 (proj2
             (extractType_precedence "International grant (kpm)"))))).
    + now apply N.
    + now apply N.
    + now apply N.
    + exists "International grant (", "kpm", ")". split; reflexivity.
  - apply (proj1 (proj2 (proj2 (proj2 (proj2
             (extractType_precedence "INTERNATIONAL collaboration")))))).
    + now apply N.
    + now apply N.
    + now apply N.
    + now apply N.
    + exists "", "INTERNATIONAL", " collaboration". split; reflexivity.
Defined.

(** ** Titles: size, lines and blank texts *)

Section TitleBounds.

Lemma length_substring_le_limit (s : string) (n : nat) :
  String.length (Js.substring s 0 n) <= n.
Proof.
  unfold Js.substring. rewrite Nat.min_0_l, Nat.max_0_l, Nat.sub_0_r.
  revert n; induction s as [|c s IH]; intros [|n]; simpl; try lia.
  specialize (IH n). lia.
Qed.

Lemma length_substring_le (s : string) (n : nat) :
  String.length (Js.substring s 0 n) <= String.length s.
Proof.
  unfold Js.substring. rewrite Nat.min_0_l, Nat.max_0_l, Nat.sub_0_r.
  revert n; induction s as [|c s IH]; intros [|n]; simpl; try lia.
  specialize (IH n). lia.
Qed.

Lemma split_newline_lengths (text : string) :
  Forall (fun line => String.length line <= String.length text) (Js.split_newline text).
Proof.
  induction text as [|c s IH]; simpl.
  - repeat constructor.
  - destruct (Ascii.eqb c Js.newline).
    + constructor; [simpl; lia|].
      eapply Forall_impl; [|exact IH]. simpl. intros; lia.
    + destruct (split_newline_cons s) as [l [ls E]]. rewrite E in *.
      inversion IH as [|? ? Hl Hls]; subst. constructor; [simpl; lia|].
      eapply Forall_impl; [|exact Hls]. simpl. intros; lia.
Qed.

Lemma firstNonEmptyLine_length (text line0 : string) :
  firstNonEmptyLine text = Some line0 -> String.length line0 <= String.length text.
Proof.
  unfold firstNonEmptyLine, Grants.titleLines. intros H.
  assert (I : In line0 (filter (fun line => (0 <? String.length (Js.trim line))%nat)
                               (Js.split_newline text))).
  { destruct (filter _ _); [discriminate|]. injection H as ->. now left. }
  apply filter_In in I. destruct I as [I _].
  exact (proj1 (Forall_forall _ _) (split_newline_lengths text) _ I).
Qed.

Lemma extractTitle_no_line (text : string) :
  firstNonEmptyLine text = None ->
  Grants.extractTitle text
  = Js.substring text 0 100 ++ (if (100 <? String.length text)%nat then "..." else "").
Proof.
  unfold firstNonEmptyLine, Grants.extractTitle.
  destruct (Grants.titleLines text); [reflexivity | discriminate].
Qed.

Lemma length_truncateTitle (title : string) :
  String.length (Publications.truncateTitle title) <= 153.
Proof.
  unfold Publications.truncateTitle.
  destruct (Nat.ltb_spec 150 (String.length title)); [|lia].
  rewrite length_append. pose proof (length_substring_le_limit title 150). simpl. lia.
Qed.

End TitleBounds.

(** X2.  A title is short: [extractTitle] returns at most 103 characters
    for any text, and never more characters than the text when the text
    has at most 100; the title of a publication record has at most 153
    characters. *)
Theorem title_length_bounds :
  (forall text,
      String.length (Grants.extractTitle text) <= 103
      /\ (String.length text <= 100 ->
          String.length (Grants.extractTitle text) <= String.length text))
  /\ (forall element index,
         String.length (Publications.title (Publications.toPublication element index))
         <= 153).
Proof.
  split.
  - intros text. destruct (firstNonEmptyLine text) as [line0|] eqn:E.
    + rewrite (extractTitle_first_line _ _ E), length_append.
      pose proof (length_substring_le_limit (Js.trim line0) 100).
      pose proof (length_substring_le (Js.trim line0) 100).
      pose proof (length_trim_le line0).
      pose proof (firstNonEmptyLine_length _ _ E).
      destruct (Nat.ltb_spec 100 (String.length line0)); simpl; split; lia.
    + rewrite (extractTitle_no_line _ E), length_append.
      pose proof (length_substring_le_limit text 100).
      pose proof (length_substring_le text 100).
      destruct (Nat.ltb_spec 100 (String.length text)); simpl; split; lia.
  - intros element index. apply length_truncateTitle.
Qed.

(** A two-line text of 23 characters has a title of at most 23. *)
Lemma title_length_bounds_witness :
  String.length (Grants.extractTitle Demo.paddedText) <= String.length Demo.paddedText.
Proof.
  apply (proj2 (proj1 title_length_bounds Demo.paddedText)). vm_compute. lia.
Defined.

Section BlankTexts.

Lemma trimStart_blank_cons (c : ascii) (s : string) :
  Js.trimStart (String c s) = "" <-> Js.isWhiteSpace c = true /\ Js.trimStart s = "".
Proof.
  simpl. destruct (Js.isWhiteSpace c); split.
  - now intros ->.
  - now intros [_ ->].
  - discriminate.
  - now intros [? _].
Qed.

(** [trim] empties exactly the texts of white space. *)
Lemma trim_blank_iff (s : string) : Js.trim s = "" <-> Js.trimStart s = "".
Proof.
  unfold Js.trim. split; [|now intros ->].
  destruct (trimStart_head s) as [-> | [c [r [-> W]]]]; [reflexivity|].
  destruct (trimEnd_visible_head c r W) as [r' ->]. discriminate.
Qed.

Lemma split_newline_blank (text : string) :
  Js.trimStart text = "" ->
  Forall (fun line => Js.trimStart line = "") (Js.split_newline text).
Proof.
  induction text as [|c s IH]; intros B.
  - repeat constructor.
  - apply trimStart_blank_cons in B. destruct B as [W B]. specialize (IH B). simpl.
    destruct (Ascii.eqb c Js.newline).
    + now constructor.
    + destruct (split_newline_cons s) as [l [ls E]]. rewrite E in *.
      inversion IH; subst. constructor; [|assumption].
      apply trimStart_blank_cons. now split.
Qed.

Lemma split_newline_visible (text : string) :
  Js.trimStart text <> "" ->
  Exists (fun line => Js.trimStart line <> "") (Js.split_newline text).
Proof.
  induction text as [|c s IH]; intros V; [now contradiction V|].
  simpl in V. simpl Js.split_newline.
  destruct (Js.isWhiteSpace c) eqn:W.
  - specialize (IH V). destruct (Ascii.eqb c Js.newline).
    + now apply Exists_cons_tl.
    + destruct (split_newline_cons s) as [l [ls E]]. rewrite E in *.
      inversion IH; subst.
      * apply Exists_cons_hd. simpl. now rewrite W.
      * now apply Exists_cons_tl.
  - destruct (Ascii.eqb c Js.newline) eqn:N.
    + apply newline_isWhiteSpace in N. congruence.
    + destruct (split_newline_cons s) as [l [ls E]]. rewrite E.
      apply Exists_cons_hd. simpl. rewrite W. discriminate.
Qed.

Lemma titleLines_blank_iff (text : string) :
  Grants.titleLines text = [] <-> Js.trim text = "".
Proof.
  rewrite trim_blank_iff. unfold Grants.titleLines. split.
  - intros E. destruct (string_dec (Js.trimStart text) "") as [B|V]; [exact B|].
    exfalso. apply split_newline_visible in V. apply Exists_exists in V.
    destruct V as [line [I V]].
    assert (F : In line (filter (fun line => (0 <? String.length (Js.trim line))%nat)
                                (Js.split_newline text))).
    { apply filter_In. split; [exact I|]. apply Nat.ltb_lt.
      destruct (Js.trim line) eqn:T; [|simpl; lia].
      apply trim_blank_iff in T. contradiction. }
    rewrite E in F. exact F.
  - intros B. pose proof (split_newline_blank _ B) as F.
    induction F as [|l ls Hl _ IH]; [reflexivity|]. simpl.
    rewrite (proj2 (trim_blank_iff l) Hl). exact IH.
Qed.

Lemma firstNonEmptyLine_visible (text : string) :
  Js.trim text <> "" -> exists line0, firstNonEmptyLine text = Some line0.
Proof.
  intros V. destruct (firstNonEmptyLine text) as [line0|] eqn:E; [now exists line0|].
  exfalso. apply V, titleLines_blank_iff.
  unfold firstNonEmptyLine in E. now destruct (Grants.titleLines text).
Qed.

End BlankTexts.

(** X3.  [extractTitle] reaches its last return exactly on the texts that
    hold white space only (the empty text among them), and there it gives
    the text itself, white space kept, cut to 100 characters; on every
    other text the title comes from the first non-empty line. *)
Theorem extractTitle_blank_text (text : string) :
  (Js.trim text = "" ->
   firstNonEmptyLine text = None
   /\ Grants.extractTitle text
      = Js.substring text 0 100
        ++ (if (100 <? String.length text)%nat then "..." else "")
   /\ (String.length text <= 100 -> Grants.extractTitle text = text))
  /\ (Js.trim text <> "" ->
      exists line0,
        firstNonEmptyLine text = Some line0
        /\ Grants.extractTitle text
           = Js.substring (Js.trim line0) 0 100
             ++ (if (100 <? String.length line0)%nat then "..." else "")).
Proof.
  split.
  - intros B. apply titleLines_blank_iff in B.
    assert (E : firstNonEmptyLine text = None) by (unfold firstNonEmptyLine; now rewrite B).
    split; [exact E|]. rewrite (extractTitle_no_line _ E). split; [reflexivity|].
    intros L. rewrite substring_short by exact L.
    destruct (Nat.ltb_spec 100 (String.length text)); [lia | apply append_nil_r].
  - intros V. destruct (firstNonEmptyLine_visible _ V) as [line0 E].
    exists line0. split; [exact E | now apply extractTitle_first_line].
Qed.

(** A text of three white-space characters on two lines is its own title;
    a text with a word is titled by the line of the word. *)
Lemma extractTitle_blank_text_witness :
  Grants.extractTitle DemoView.blankText = DemoView.blankText
  /\ exists line0, firstNonEmptyLine Demo.paddedText = Some line0.
Proof.
  split.
  - apply (proj1 (extractTitle_blank_text DemoView.blankText)).
    + reflexivity.
    + vm_compute. lia.
  - destruct (proj2 (extractTitle_blank_text Demo.paddedText)) as [line0 [E _]].
    + vm_compute. discriminate.
    + now exists line0.
Defined.

Section SingleLine.

Lemma includes_LF_cons (a : ascii) (s : string) :
  Js.includes (String a s) Js.LF = Ascii.eqb a Js.newline || Js.includes s Js.LF.
Proof. simpl. now rewrite andb_true_r. Qed.

Lemma includes_LF_append (a b : string) :
  Js.includes (a ++ b) Js.LF = Js.includes a Js.LF || Js.includes b Js.LF.
Proof.
  induction a as [|c a IH].
  - simpl. reflexivity.
  - change (String c a ++ b) with (String c (a ++ b)).
    now rewrite !includes_LF_cons, IH, orb_assoc.
Qed.

Lemma split_newline_no_LF (text : string) :
  Forall (fun line => Js.includes line Js.LF = false) (Js.split_newline text).
Proof.
  induction text as [|c s IH]; simpl Js.split_newline.
  - repeat constructor.
  - destruct (Ascii.eqb c Js.newline) eqn:N.
    + now constructor.
    + destruct (split_newline_cons s) as [l [ls E]]. rewrite E in *.
      inversion IH; subst. constructor; [|assumption].
      now rewrite includes_LF_cons, N.
Qed.

Lemma trimStart_no_LF (s : string) :
  Js.includes s Js.LF = false -> Js.includes (Js.trimStart s) Js.LF = false.
Proof.
  induction s as [|c s IH]; [easy|]. intros H. simpl Js.trimStart.
  destruct (Js.isWhiteSpace c); [|exact H].
  rewrite includes_LF_cons in H. apply orb_false_iff in H. now apply IH.
Qed.

Lemma trimEnd_no_LF (s : string) :
  Js.includes s Js.LF = false -> Js.includes (Js.trimEnd s) Js.LF = false.
Proof.
  induction s as [|c s IH]; [easy|]. intros H.
  rewrite includes_LF_cons in H. apply orb_false_iff in H. destruct H as [N H].
  specialize (IH H). simpl Js.trimEnd. destruct (Js.trimEnd s) as [|d r].
  - destruct (Js.isWhiteSpace c); [reflexivity|].
    now rewrite includes_LF_cons, N.
  - now rewrite includes_LF_cons, N, IH.
Qed.

Lemma substring_no_LF (s : string) (n : nat) :
  Js.includes s Js.LF = false -> Js.includes (Js.substring s 0 n) Js.LF = false.
Proof.
  unfold Js.substring. rewrite Nat.min_0_l, Nat.max_0_l, Nat.sub_0_r.
  revert n; induction s as [|c s IH]; intros [|n] H; try reflexivity.
  rewrite includes_LF_cons in H. apply orb_false_iff in H. destruct H as [N H].
  simpl String.substring. now rewrite includes_LF_cons, N, IH.
Qed.

Lemma firstNonEmptyLine_In (text line0 : string) :
  firstNonEmptyLine text = Some line0 ->
  In line0 (Js.split_newline text) /\ 0 < String.length (Js.trim line0).
Proof.
  unfold firstNonEmptyLine, Grants.titleLines. intros H.
  assert (I : In line0 (filter (fun line => (0 <? String.length (Js.trim line))%nat)
                               (Js.split_newline text))).
  { destruct (filter _ _); [discriminate|]. injection H as ->. now left. }
  apply filter_In in I. now rewrite Nat.ltb_lt in I.
Qed.

End SingleLine.

(** X4.  [extractTitle] gives the empty title for the empty text only,
    and the title of a text that holds a character other than white space
    is a single line: it holds no line feed. *)
Theorem extractTitle_nonempty_single_line (text : string) :
  (Grants.extractTitle text = "" <-> text = "")
  /\ (Js.trim text <> "" -> Js.includes (Grants.extractTitle text) Js.LF = false).
Proof.
  assert (Z : forall s n, 0 < n -> Js.substring s 0 n = "" -> s = "").
  { intros s [|n] L; [lia|]. unfold Js.substring.
    rewrite Nat.min_0_l, Nat.max_0_l, Nat.sub_0_r. now destruct s. }
  assert (A : forall a b, a ++ b = "" -> a = "").
  { intros [|c a] b; [reflexivity | discriminate]. }
  split; [split|].
  - intros E. destruct (firstNonEmptyLine text) as [line0|] eqn:F.
    + rewrite (extractTitle_first_line _ _ F) in E.
      apply A, Z in E; [|lia].
      destruct (firstNonEmptyLine_In _ _ F) as [_ L]. rewrite E in L. simpl in L. lia.
    + rewrite (extractTitle_no_line _ F) in E. apply A, Z in E; [exact E | lia].
  - now intros ->.
  - intros V. destruct (firstNonEmptyLine_visible _ V) as [line0 F].
    rewrite (extractTitle_first_line _ _ F).
    destruct (firstNonEmptyLine_In _ _ F) as [I _].
    pose proof (proj1 (Forall_forall _ _) (split_newline_no_LF text) _ I) as N.
    rewrite includes_LF_append, substring_no_LF.
    + now destruct (100 <? String.length line0)%nat.
    + unfold Js.trim. now apply trimEnd_no_LF, trimStart_no_LF.
Qed.

(** The title of a two-line grant text holds no line feed. *)
Lemma extractTitle_nonempty_single_line_witness :
  Js.includes (Grants.extractTitle Demo.paddedText) Js.LF = false
  /\ Js.includes Demo.paddedText Js.LF = true.
Proof.
  split; [|reflexivity].
  apply (proj2 (extractTitle_nonempty_single_line Demo.paddedText)).
  vm_compute. discriminate.
Defined.

(** ** Live records *)

Section LiveRecords.

Lemma Forall_mapIndexed {A B : Type} (P : B -> Prop) (f : A -> nat -> B)
      (xs : list A) (i : nat) :
  (forall x j, In x xs -> P (f x j)) -> Forall P (mapIndexed f xs i).
Proof.
  revert i; induction xs as [|x xs IH]; intros i H; simpl; constructor.
  - apply H. now left.
  - apply IH. intros y j I. apply H. now right.
Qed.

Lemma keptTexts_In (es : list Browser.Element) (text : string) :
  In text (Grants.keptTexts es) ->
  Grants.survives text = true
  /\ exists element, In element es /\ text = Js.trim (Browser.textContent element).
Proof.
  unfold Grants.keptTexts. rewrite filter_In, in_map_iff.
  intros [[element [E I]] S]. split; [exact S|]. exists element. now split.
Qed.

Lemma extractType_range (text : string) :
  In (Grants.extractType text)
     ["FRGS"; "RACER"; "LESTARI"; "KPM"; "International"; "National"; "Research Grant"].
Proof.
  unfold Grants.extractType.
  repeat match goal with
         | |- context [if ?b then _ else _] => destruct b
         end; simpl; auto 10.
Qed.

Lemma extractStatus_range (text : string) :
  In (Grants.extractStatus text) ["Completed"; "Active"; "Unknown"].
Proof.
  unfold Grants.extractStatus.
  repeat match goal with
         | |- context [if ?b then _ else _] => destruct b
         end; simpl; auto.
Qed.

Lemma extractTitle_visible_nonempty (text : string) :
  Js.trim text <> "" -> Grants.extractTitle text <> "".
Proof.
  intros V E. destruct (firstNonEmptyLine_visible _ V) as [line0 F].
  rewrite (extractTitle_first_line _ _ F) in E.
  destruct (firstNonEmptyLine_In _ _ F) as [_ L].
  destruct (Js.trim line0) as [|c r]; [simpl in L; lia|]. discriminate.
Qed.

End LiveRecords.

(** X5.  After a parse the grants are the fallback, or every record is
    built from the text of one element of the parsed document: its details
    are that element's trimmed text, longer than 10 characters and holding
    a keyword; its title, type and status are those the three extractors
    give for the details; the title is not empty; the type is one of the
    seven the classifier knows and the status one of its three. *)
Theorem live_grants_wellformed
        (host : Browser.Host) (html : string) (doc : Browser.Document)
        (st : Grants.State) :
  Browser.parseFromString host html = Normal doc ->
  let gs := Grants.researchGrants (fieldsAfter (Grants.parseResearchGrants host html) st) in
  gs = Grants.fallbackResearchGrants
  \/ Forall (fun g =>
               (exists selector element,
                   In selector Grants.possibleSelectors
                   /\ In element (doc selector)
                   /\ Grants.details g = Js.trim (Browser.textContent element))
               /\ 10 < String.length (Grants.details g)
               /\ Grants.isResearchGrantText (Grants.details g) = true
               /\ Grants.title g = Grants.extractTitle (Grants.details g)
               /\ Grants.type g = Grants.extractType (Grants.details g)
               /\ Grants.status g = Grants.extractStatus (Grants.details g)
               /\ Grants.title g <> ""
               /\ In (Grants.type g)
                     ["FRGS"; "RACER"; "LESTARI"; "KPM"; "International"; "National";
                      "Research Grant"]
               /\ In (Grants.status g) ["Completed"; "Active"; "Unknown"])
            gs.
Proof.
  intros P gs. subst gs. unfold fieldsAfter.
  rewrite (parseResearchGrants_run _ _ _ _ P). cbn [snd Grants.researchGrants].
  destruct (grantsOfDocument_cases doc) as [-> | ->]; [now left | right].
  unfold Grants.liveGrants, Grants.liveGrantsFrom.
  apply Forall_mapIndexed. intros text j I. cbn [Grants.grantOf Grants.details
    Grants.title Grants.type Grants.status].
  apply keptTexts_In in I. destruct I as [S [element [I ->]]].
  pose proof S as S'. unfold Grants.survives in S'.
  rewrite !andb_true_iff, Nat.ltb_lt in S'. destruct S' as [[_ L] K].
  repeat apply conj; auto using extractType_range, extractStatus_range.
  - destruct (matchedElements_source doc Grants.possibleSelectors) as [E | [sel [Hs E]]];
      rewrite E in I; [contradiction|].
    exists sel, element. repeat split; assumption.
  - apply extractTitle_visible_nonempty. rewrite trim_idempotent.
    intros E. rewrite E in L. simpl in L. lia.
Qed.

(** The two surviving rows of the sample grants page. *)
Lemma live_grants_wellformed_witness :
  Forall (fun g => 10 < String.length (Grants.details g) /\ Grants.title g <> "")
         (Grants.researchGrants
            (fieldsAfter (Grants.parseResearchGrants (Demo.serving Demo.grantsPage) "")
                         Grants.constructor)).
Proof.
  destruct (live_grants_wellformed (Demo.serving Demo.grantsPage) "" Demo.grantsPage
              Grants.constructor eq_refl) as [F | W].
  - vm_compute in F. discriminate.
  - eapply Forall_impl; [|exact W]. cbv beta. intros g H. tauto.
Defined.

(** ** What a fetch leaves *)

(** X6.  A fetch never leaves a widget without records: the grants list
    has at least one record and the publications list at least five,
    whatever the host answers.  After a parse the grants are the fallback
    or at most one record per matched element. *)
Theorem records_never_empty (host : Browser.Host) :
  (forall st,
      1 <= List.length (Grants.researchGrants
                          (fieldsAfter (Grants.fetchResearchGrants host) st)))
  /\ (forall st,
         5 <= List.length (Publications.publications
                             (fieldsAfter (Publications.fetchPublications host) st)))
  /\ (forall html doc st,
         Browser.parseFromString host html = Normal doc ->
         let gs := Grants.researchGrants
                     (fieldsAfter (Grants.parseResearchGrants host html) st) in
         1 <= List.length gs
         /\ (gs = Grants.fallbackResearchGrants
             \/ List.length gs
                <= List.length (Grants.matchedElements doc Grants.possibleSelectors))).
Proof.
  assert (G : forall doc, 1 <= List.length (Grants.grantsOfDocument doc)).
  { intros doc. unfold Grants.grantsOfDocument.
    destruct (Grants.liveGrants _); simpl; lia. }
  assert (Q : forall doc, 5 <= List.length (Publications.publicationsOfDocument doc)).
  { intros doc. unfold Publications.publicationsOfDocument. cbv zeta.
    destruct (Nat.ltb_spec (List.length (Publications.livePublications
                (Publications.findPublicationElements doc Publications.selectors []))) 5);
      [cbn [List.length Publications.fallbackPublications] | ]; lia. }
  repeat apply conj.
  - intros st. unfold fieldsAfter. rewrite fetchResearchGrants_run.
    cbn [snd Grants.researchGrants].
    destruct (Browser.fetchedDocument host _); [apply G | simpl; lia].
  - intros st. unfold fieldsAfter. rewrite fetchPublications_run.
    cbn [snd Publications.publications].
    destruct (Browser.fetchedDocument host _); [apply Q | simpl; lia].
  - intros html doc st P gs. subst gs. unfold fieldsAfter.
    rewrite (parseResearchGrants_run _ _ _ _ P). cbn [snd Grants.researchGrants].
    split; [apply G|].
    destruct (grantsOfDocument_cases doc) as [-> | ->]; [now left | right].
    unfold Grants.liveGrants. rewrite length_liveGrantsFrom.
    unfold Grants.keptTexts.
    rewrite <- (length_map Grants.candidateText). apply filter_length_le.
Qed.

(** The sample grants page: three rows matched, two records. *)
Lemma records_never_empty_witness :
  List.length (Grants.researchGrants
                 (fieldsAfter (Grants.parseResearchGrants (Demo.serving Demo.grantsPage) "")
                              Grants.constructor))
  <= 3.
Proof.
  destruct (proj2 (proj2 (proj2 (records_never_empty (Demo.serving Demo.grantsPage)))
                         "" Demo.grantsPage Grants.constructor eq_refl))
    as [F | L].
  - vm_compute in F. discriminate.
  - exact L.
Defined.

(** X7.  A fetch replaces the records wholesale.  Its outcome depends on
    the host and on the profile address only, not on the records or the
    loading flag the instance held; it leaves the address as it was; and
    with the same host a second fetch leaves what the first left. *)
Theorem fetch_replaces_records (host : Browser.Host) :
  (forall st1 st2,
      Grants.expertUrl st1 = Grants.expertUrl st2 ->
      Grants.fetchResearchGrants host st1 = Grants.fetchResearchGrants host st2)
  /\ (forall st,
         Grants.expertUrl (fieldsAfter (Grants.fetchResearchGrants host) st)
         = Grants.expertUrl st
         /\ Grants.fetchResearchGrants host
              (fieldsAfter (Grants.fetchResearchGrants host) st)
            = Grants.fetchResearchGrants host st)
  /\ (forall st1 st2,
         Publications.scholarUrl st1 = Publications.scholarUrl st2 ->
         Publications.fetchPublications host st1 = Publications.fetchPublications host st2)
  /\ (forall st,
         Publications.scholarUrl (fieldsAfter (Publications.fetchPublications host) st)
         = Publications.scholarUrl st
         /\ Publications.fetchPublications host
              (fieldsAfter (Publications.fetchPublications host) st)
            = Publications.fetchPublications host st).
Proof.
  assert (G : forall st1 st2,
             Grants.expertUrl st1 = Grants.expertUrl st2 ->
             Grants.fetchResearchGrants host st1 = Grants.fetchResearchGrants host st2).
  { intros st1 st2 E. rewrite !fetchResearchGrants_run.
    unfold Grants.requestUrl. now rewrite E. }
  assert (Q : forall st1 st2,
             Publications.scholarUrl st1 = Publications.scholarUrl st2 ->
             Publications.fetchPublications host st1
             = Publications.fetchPublications host st2).
  { intros st1 st2 E. rewrite !fetchPublications_run.
    unfold Publications.requestUrl. now rewrite E. }
  repeat apply conj; auto; intros st; split.
  - unfold fieldsAfter. now rewrite fetchResearchGrants_run.
  - apply G. unfold fieldsAfter. now rewrite fetchResearchGrants_run.
  - unfold fieldsAfter. now rewrite fetchPublications_run.
  - apply Q. unfold fieldsAfter. now rewrite fetchPublications_run.
Qed.

(** A widget that holds stale records and a set loading flag fetches what
    a fresh one fetches. *)
Lemma fetch_replaces_records_witness :
  Grants.fetchResearchGrants (Demo.serving Demo.grantsPage)
    {| Grants.expertUrl := Grants.expertUrl Grants.constructor;
       Grants.researchGrants := Grants.fallbackResearchGrants;
       Grants.isLoading := true |}
  = Grants.fetchResearchGrants (Demo.serving Demo.grantsPage) Grants.constructor.
Proof.
  apply (proj1 (fetch_replaces_records (Demo.serving Demo.grantsPage))). reflexivity.
Defined.

(** ** Rendering *)

Section Rendering.
Import View.

Lemma written_nil {S : Type} (sc : Scene S) : written sc [] = sc.
Proof. unfold written. rewrite app_nil_r. now destruct sc as [st [mb ta ws]]. Qed.

Lemma written_written {S : Type} (sc : Scene S) (ws1 ws2 : list Write) :
  written (written sc ws1) ws2 = written sc (ws1 ++ ws2)%list.
Proof. unfold written. simpl. now rewrite app_assoc. Qed.

Lemma write_run {S : Type} (w : Write) (sc : Scene S) :
  write w sc = (Normal tt, written sc [w]).
Proof. reflexivity. Qed.

Lemma forEachIndexed_write {S A : Type} (f : A -> nat -> string)
      (xs : list A) (i : nat) (sc : Scene S) :
  forEachIndexed xs (fun x index => write (Append (f x index))) i sc
  = (Normal tt, written sc (map Append (mapIndexed f xs i))).
Proof.
  revert i sc; induction xs as [|x xs IH]; intros i sc; simpl.
  - unfold ret. now rewrite written_nil.
  - unfold bind. rewrite write_run, IH, written_written. reflexivity.
Qed.

Lemma held_overwrite (before : list Write) (html : string) (pieces : list string) :
  held (before ++ Assign html :: map Append pieces)%list = html :: pieces.
Proof.
  unfold held. rewrite fold_left_app. simpl.
  generalize (fold_left (fun pieces0 w => match w with
                                          | Assign h => [h]
                                          | Append h => (pieces0 ++ [h])%list
                                          end) before []); intros _.
  assert (G : forall start,
             fold_left (fun pieces0 w => match w with
                                         | Assign h => [h]
                                         | Append h => (pieces0 ++ [h])%list
                                         end) (map Append pieces) start
             = (start ++ pieces)%list).
  { induction pieces as [|p ps IH]; intros start; simpl.
    - now rewrite app_nil_r.
    - rewrite IH, <- app_assoc. reflexivity. }
  apply G.
Qed.

Lemma present_false (pg : Page) :
  present pg = false -> modalBody pg = false \/ textArea pg = false.
Proof. unfold present. apply andb_false_iff. Qed.

End Rendering.

Section GrantsRendering.
Import View Grants GrantsView.

Lemma displayResearchGrants_absent (sc : Scene State) :
  present (page sc) = false -> displayResearchGrants sc = (Normal tt, sc).
Proof.
  intros A. unfold displayResearchGrants, bind, getPage.
  destruct (modalBody (page sc)) eqn:B; [|reflexivity].
  destruct (textArea (page sc)) eqn:T; [|reflexivity].
  unfold present in A. rewrite B, T in A. discriminate.
Qed.

Lemma showLoadingState_run (sc : Scene State) :
  showLoadingState sc
  = (Normal tt, if present (page sc) then written sc [Assign loadingMarkup] else sc).
Proof.
  unfold showLoadingState, bind, getPage, present.
  destruct (modalBody (page sc)); [|reflexivity].
  destruct (textArea (page sc)); reflexivity.
Qed.

Lemma displayError_run (sc : Scene State) :
  displayError sc
  = (Normal tt,
     if present (page sc)
     then written sc [Assign (errorMarkup (expertUrl (fields sc)))]
     else sc).
Proof.
  unfold displayError, bind, getPage, present.
  destruct (modalBody (page sc)); [|reflexivity].
  destruct (textArea (page sc)); [|reflexivity].
  destruct sc as [st pg]. reflexivity.
Qed.

Lemma displayResearchGrants_present (sc : Scene State) :
  present (page sc) = true ->
  displayResearchGrants sc
  = (Normal tt, written sc (Assign "" :: map Append (displayPieces (fields sc)))).
Proof.
  intros A. unfold present in A. apply andb_true_iff in A. destruct A as [B T].
  unfold displayResearchGrants. unfold bind at 1. unfold getPage at 1.
  rewrite B, T. cbn [negb].
  unfold bind at 1. rewrite write_run.
  unfold bind at 1. rewrite write_run, written_written.
  unfold bind at 1. unfold onFields at 1. cbn [getResearchGrants fields written].
  unfold displayPieces.
  set (act := filter (fun grant => status grant =? "Active") (researchGrants (fields sc))).
  set (com := filter (fun grant => status grant =? "Completed") (researchGrants (fields sc))).
  set (sc1 := {| fields := fields sc; page := _ |}).
  assert (E1 : sc1 = written sc [Assign ""; Append headerMarkup]) by reflexivity.
  clearbody sc1. subst sc1.
  assert (S1 : forall sc0 : Scene State,
             (if (0 <? List.length act)%nat
              then write (Append activeHeaderMarkup) ;;
                   forEachIndexed act
                     (fun grant index => write (Append (activeGrantMarkup grant index))) 0
              else ret tt) sc0
             = (Normal tt,
                written sc0 (map Append
                               (if (0 <? List.length act)%nat
                                then activeHeaderMarkup :: mapIndexed activeGrantMarkup act 0
                                else [])))).
  { intros sc0. destruct (0 <? List.length act)%nat.
    - unfold bind. rewrite write_run, forEachIndexed_write, written_written. reflexivity.
    - unfold ret. simpl. now rewrite written_nil. }
  assert (S2 : forall sc0 : Scene State,
             (if (0 <? List.length com)%nat
              then write (Append completedHeaderMarkup) ;;
                   forEachIndexed com
                     (fun grant index => write (Append (completedGrantMarkup grant index))) 0
              else ret tt) sc0
             = (Normal tt,
                written sc0 (map Append
                               (if (0 <? List.length com)%nat
                                then completedHeaderMarkup
                                     :: mapIndexed completedGrantMarkup com 0
                                else [])))).
  { intros sc0. destruct (0 <? List.length com)%nat.
    - unfold bind. rewrite write_run, forEachIndexed_write, written_written. reflexivity.
    - unfold ret. simpl. now rewrite written_nil. }
  unfold bind at 1. rewrite S1, written_written.
  unfold bind at 1. rewrite S2, written_written.
  unfold bind at 1. unfold onFields at 1. cbn [getExpertUrl fields written].
  rewrite write_run.
  f_equal. unfold written. cbn [fields page modalBody textArea innerHTML].
  f_equal. f_equal. rewrite <- !app_assoc. cbn [app map].
  rewrite !map_app. reflexivity.
Qed.

End GrantsRendering.

Section GrantsInit.
Import View Grants GrantsView.

Lemma onFields_run {S A : Type} (m : M S A) (sc : Scene S) :
  onFields m sc = (fst (m (fields sc)), withFields sc (snd (m (fields sc)))).
Proof. unfold onFields, withFields. now destruct (m (fields sc)). Qed.

(** The method with its rendering call does to the fields what the method
    alone does, and to the text area what [showLoadingState] does. *)
Lemma view_fetchResearchGrants_run (host : Browser.Host) (sc : Scene State) :
  GrantsView.fetchResearchGrants host sc
  = (Normal tt,
     withFields (if present (page sc) then written sc [Assign loadingMarkup] else sc)
                (fieldsAfter (Grants.fetchResearchGrants host) (fields sc))).
Proof.
  unfold fieldsAfter. rewrite fetchResearchGrants_run. cbn [snd].
  unfold GrantsView.fetchResearchGrants, Browser.fetchedDocument, requestUrl.
  unfold bind at 1. rewrite onFields_run. cbn [setIsLoading fst snd].
  unfold bind at 1. rewrite showLoadingState_run.
  unfold tryFinally, tryCatch.
  unfold bind at 1. rewrite onFields_run. cbn [getExpertUrl fst snd].
  destruct sc as [st pg]. cbn [withFields page fields].
  destruct (present pg);
    cbn [withFields written page fields expertUrl modalBody textArea innerHTML];
    unfold bind at 1; unfold lift at 1;
    (destruct (Browser.fetch host _) as [response|e];
     [|rewrite !onFields_run; reflexivity]);
    unfold bind at 1;
    (destruct (Browser.ok response); cbn [negb];
     [|unfold throw; rewrite !onFields_run; reflexivity]);
    unfold ret at 1; unfold bind at 1; unfold lift at 1;
    (destruct (Browser.text response) as [html|e];
     [|rewrite !onFields_run; reflexivity]);
    rewrite onFields_run; cbn [fields];
    (destruct (Browser.parseFromString host html) as [doc|e] eqn:Q;
     [rewrite (parseResearchGrants_run _ _ _ _ Q)
     |rewrite (parseResearchGrants_throw _ _ _ _ Q)];
     cbn [fst snd]; rewrite !onFields_run; reflexivity).
Qed.

Lemma init_run (host : Browser.Host) (sc : Scene State) :
  init host sc
  = (Normal tt,
     let st' := fieldsAfter (Grants.fetchResearchGrants host) (fields sc) in
     if present (page sc)
     then written (withFields sc st')
                  (Assign loadingMarkup :: Assign "" :: map Append (displayPieces st'))
     else withFields sc st').
Proof.
  unfold init, tryCatch. unfold bind at 1. rewrite view_fetchResearchGrants_run.
  cbv zeta. destruct (present (page sc)) eqn:A.
  - rewrite displayResearchGrants_present by exact A.
    unfold written, withFields.
    cbn [fields page modalBody textArea innerHTML].
    now rewrite <- app_assoc.
  - rewrite displayResearchGrants_absent by exact A. reflexivity.
Qed.

Lemma filter_filter_displayed (name : string) (gs : list Grant) :
  name = "Active" \/ name = "Completed" ->
  filter (fun grant => status grant =? name) (filter displayed gs)
  = filter (fun grant => status grant =? name) gs.
Proof.
  intros N. induction gs as [|g gs IH]; simpl; [reflexivity|].
  unfold displayed at 1.
  destruct (status g =? "Active") eqn:A; destruct (status g =? "Completed") eqn:C; simpl.
  - now rewrite IH.
  - now rewrite IH.
  - now rewrite IH.
  - rewrite IH. destruct N as [-> | ->]; [now rewrite A | now rewrite C].
Qed.

Lemma displayPieces_withoutUndisplayed (st : State) :
  displayPieces (withoutUndisplayed st) = displayPieces st.
Proof.
  unfold displayPieces, withoutUndisplayed. cbn [researchGrants expertUrl].
  rewrite !filter_filter_displayed by auto. reflexivity.
Qed.

Lemma filter_none_displayed (name : string) (gs : list Grant) :
  name = "Active" \/ name = "Completed" ->
  Forall (fun g => displayed g = false) gs ->
  filter (fun grant => status grant =? name) gs = [].
Proof.
  intros N F. induction F as [|g gs H _ IH]; simpl; [reflexivity|].
  unfold displayed in H. apply orb_false_iff in H. destruct H as [A C].
  destruct N as [-> | ->]; [rewrite A | rewrite C]; exact IH.
Qed.

End GrantsInit.

Section PublicationsRendering.
Import View Publications PublicationsView.

Lemma displayPublications_absent (sc : Scene State) :
  present (page sc) = false -> displayPublications sc = (Normal tt, sc).
Proof.
  intros A. unfold displayPublications, bind, getPage.
  destruct (modalBody (page sc)) eqn:B; [|reflexivity].
  destruct (textArea (page sc)) eqn:T; [|reflexivity].
  unfold present in A. rewrite B, T in A. discriminate.
Qed.

Lemma publications_showLoadingState_run (sc : Scene State) :
  showLoadingState sc
  = (Normal tt, if present (page sc) then written sc [Assign loadingMarkup] else sc).
Proof.
  unfold showLoadingState, bind, getPage, present.
  destruct (modalBody (page sc)); [|reflexivity].
  destruct (textArea (page sc)); reflexivity.
Qed.

Lemma publications_displayError_run (sc : Scene State) :
  displayError sc
  = (Normal tt,
     if present (page sc)
     then written sc [Assign (errorMarkup (scholarUrl (fields sc)))]
     else sc).
Proof.
  unfold displayError, bind, getPage, present.
  destruct (modalBody (page sc)); [|reflexivity].
  destruct (textArea (page sc)); [|reflexivity].
  destruct sc as [st pg]. reflexivity.
Qed.

Lemma displayPublications_present (sc : Scene State) :
  present (page sc) = true ->
  displayPublications sc
  = (Normal tt, written sc (Assign "" :: map Append (displayPieces (fields sc)))).
Proof.
  intros A. unfold present in A. apply andb_true_iff in A. destruct A as [B T].
  unfold displayPublications. unfold bind at 1. unfold getPage at 1.
  rewrite B, T. cbn [negb].
  unfold bind at 1. rewrite write_run.
  unfold bind at 1. rewrite write_run, written_written.
  unfold bind at 1. unfold onFields at 1. cbn [getPublications fields written].
  unfold bind at 1. rewrite forEachIndexed_write.
  unfold bind at 1. unfold onFields at 1. cbn [getPublications fields written].
  unfold bind at 1. unfold onFields at 1. cbn [getScholarUrl fields written].
  rewrite write_run.
  f_equal. unfold written, displayPieces. cbn [fields page modalBody textArea innerHTML].
  f_equal. f_equal. rewrite <- !app_assoc. cbn [app map].
  rewrite !map_app. reflexivity.
Qed.

Lemma view_fetchPublications_run (host : Browser.Host) (sc : Scene State) :
  PublicationsView.fetchPublications host sc
  = (Normal tt,
     withFields (if present (page sc) then written sc [Assign loadingMarkup] else sc)
                (fieldsAfter (Publications.fetchPublications host) (fields sc))).
Proof.
  unfold fieldsAfter. rewrite fetchPublications_run. cbn [snd].
  unfold PublicationsView.fetchPublications, Browser.fetchedDocument, requestUrl.
  unfold bind at 1. rewrite onFields_run. cbn [setIsLoading fst snd].
  unfold bind at 1. rewrite publications_showLoadingState_run.
  unfold tryFinally, tryCatch.
  unfold bind at 1. rewrite onFields_run. cbn [getScholarUrl fst snd].
  destruct sc as [st pg]. cbn [withFields page fields].
  destruct (present pg);
    cbn [withFields written page fields scholarUrl modalBody textArea innerHTML];
    unfold bind at 1; unfold lift at 1;
    (destruct (Browser.fetch host _) as [response|e];
     [|rewrite !onFields_run; reflexivity]);
    unfold bind at 1;
    (destruct (Browser.ok response); cbn [negb];
     [|unfold throw; rewrite !onFields_run; reflexivity]);
    unfold ret at 1; unfold bind at 1; unfold lift at 1;
    (destruct (Browser.text response) as [html|e];
     [|rewrite !onFields_run; reflexivity]);
    rewrite onFields_run; cbn [fields];
    (destruct (Browser.parseFromString host html) as [doc|e] eqn:Q;
     [rewrite (parsePublications_run _ _ _ _ Q)
     |rewrite (parsePublications_throw _ _ _ _ Q)];
     cbn [fst snd]; rewrite !onFields_run; reflexivity).
Qed.

Lemma publications_init_run (host : Browser.Host) (sc : Scene State) :
  init host sc
  = (Normal tt,
     let st' := fieldsAfter (Publications.fetchPublications host) (fields sc) in
     if present (page sc)
     then written (withFields sc st')
                  (Assign loadingMarkup :: Assign "" :: map Append (displayPieces st'))
     else withFields sc st').
Proof.
  unfold init, tryCatch. unfold bind at 1. rewrite view_fetchPublications_run.
  cbv zeta. destruct (present (page sc)) eqn:A.
  - rewrite displayPublications_present by exact A.
    unfold written, withFields.
    cbn [fields page modalBody textArea innerHTML].
    now rewrite <- app_assoc.
  - rewrite displayPublications_absent by exact A. reflexivity.
Qed.

End PublicationsRendering.

(** ** Publication records of sparse rows *)



(** ** What the modal shows *)

(** X9.  [displayResearchGrants] renders the records whose status is
    "Active" or "Completed" and no other: it writes the same for a list
    and for that list without its other records, and when no record is
    "Active" or "Completed" the text area ends up holding the heading and
    the source note only. *)
Theorem displayResearchGrants_skips_other_statuses (sc : View.Scene Grants.State) :
  View.page (fieldsAfter GrantsView.displayResearchGrants sc)
  = View.page (fieldsAfter GrantsView.displayResearchGrants
                 (View.withFields sc (GrantsView.withoutUndisplayed (View.fields sc))))
  /\ (View.present (View.page sc) = true ->
      Forall (fun g => Grants.status g <> "Active" /\ Grants.status g <> "Completed")
             (Grants.researchGrants (View.fields sc)) ->
      View.held (View.innerHTML
                   (View.page (fieldsAfter GrantsView.displayResearchGrants sc)))
      = [""; GrantsView.headerMarkup;
         GrantsView.sourceNoteMarkup (Grants.expertUrl (View.fields sc))]).
Proof.
  unfold fieldsAfter. split.
  - destruct (View.present (View.page sc)) eqn:A.
    + rewrite !displayResearchGrants_present by exact A. cbn [snd].
      cbn [View.withFields View.fields]. rewrite displayPieces_withoutUndisplayed.
      reflexivity.
    + rewrite !displayResearchGrants_absent by exact A. reflexivity.
  - intros A F. rewrite displayResearchGrants_present by exact A. cbn [snd].
    unfold View.written. cbn [View.page View.innerHTML]. rewrite held_overwrite.
    assert (D : Forall (fun g => GrantsView.displayed g = false)
                       (Grants.researchGrants (View.fields sc))).
    { eapply Forall_impl; [|exact F]. cbv beta. intros g [NA NC].
      unfold GrantsView.displayed. apply orb_false_iff.
      split; apply String.eqb_neq; assumption. }
    unfold GrantsView.displayPieces.
    rewrite !(filter_none_displayed _ _ (or_introl eq_refl) D).
    rewrite !(filter_none_displayed _ _ (or_intror eq_refl) D).
    reflexivity.
Qed.

(** The page whose only row is the 2019 RACER grant: one record is
    parsed, of status "Unknown", and the modal shows no grant. *)
Lemma displayResearchGrants_skips_other_statuses_witness :
  let sc := fieldsAfter (GrantsView.init (Demo.serving DemoView.racerPage))
                        DemoView.grantsScene in
  List.length (Grants.researchGrants (View.fields sc)) = 1
  /\ View.held (View.innerHTML (View.page (fieldsAfter GrantsView.displayResearchGrants sc)))
     = [""; GrantsView.headerMarkup;
        GrantsView.sourceNoteMarkup (Grants.expertUrl Grants.constructor)].
Proof.
  split; [reflexivity|].
  refine (proj2 (displayResearchGrants_skips_other_statuses
                   (fieldsAfter (GrantsView.init (Demo.serving DemoView.racerPage))
                                DemoView.grantsScene)) eq_refl _).
  vm_compute. repeat constructor; discriminate.
Defined.

(** X10.  When the page lacks the modal body or its text paragraph, no
    rendering method of either widget writes anything or fails: each
    leaves the scene as it was, and [init] only updates the fields, as the
    fetch alone does. *)
Theorem rendering_without_modal (host : Browser.Host) :
  (forall sc : View.Scene Grants.State,
      View.present (View.page sc) = false ->
      GrantsView.displayResearchGrants sc = (Normal tt, sc)
      /\ GrantsView.showLoadingState sc = (Normal tt, sc)
      /\ GrantsView.displayError sc = (Normal tt, sc)
      /\ GrantsView.init host sc
         = (Normal tt,
            View.withFields sc
              (fieldsAfter (Grants.fetchResearchGrants host) (View.fields sc))))
  /\ (forall sc : View.Scene Publications.State,
         View.present (View.page sc) = false ->
         PublicationsView.displayPublications sc = (Normal tt, sc)
         /\ PublicationsView.showLoadingState sc = (Normal tt, sc)
         /\ PublicationsView.displayError sc = (Normal tt, sc)
         /\ PublicationsView.init host sc
            = (Normal tt,
               View.withFields sc
                 (fieldsAfter (Publications.fetchPublications host) (View.fields sc)))).
Proof.
  split; intros sc A.
  - rewrite showLoadingState_run, displayError_run, init_run, A.
    now rewrite (displayResearchGrants_absent _ A).
  - rewrite publications_showLoadingState_run, publications_displayError_run,
      publications_init_run, A.
    now rewrite (displayPublications_absent _ A).
Qed.

(** A page without the modal: the widget still loads its records. *)
Lemma rendering_without_modal_witness :
  GrantsView.init Demo.offline
    {| View.fields := Grants.constructor; View.page := DemoView.bare |}
  = (Normal tt,
     {| View.fields := {| Grants.expertUrl := Grants.expertUrl Grants.constructor;
                          Grants.researchGrants := Grants.fallbackResearchGrants;
                          Grants.isLoading := false |};
        View.page := DemoView.bare |}).
Proof.
  refine (eq_trans
            (proj2 (proj2 (proj2
               (proj1 (rendering_without_modal Demo.offline)
                      {| View.fields := Grants.constructor; View.page := DemoView.bare |}
                      eq_refl))))
            eq_refl).
Defined.

(** X11.  [init] always ends normally, with the fields the fetch alone
    leaves.  In front of the modal it writes the loading markup, then
    empties the text area and appends the display of the fetched records,
    so the text area ends up holding that display; the error notice is
    never among its writes. *)
Theorem init_outcome (host : Browser.Host) :
  (forall sc : View.Scene Grants.State,
      let st' := fieldsAfter (Grants.fetchResearchGrants host) (View.fields sc) in
      let sc' := fieldsAfter (GrantsView.init host) sc in
      fst (GrantsView.init host sc) = Normal tt
      /\ View.fields sc' = st'
      /\ (View.present (View.page sc) = true ->
          exists writes,
            View.innerHTML (View.page sc')
            = (View.innerHTML (View.page sc) ++ writes)%list
            /\ writes = View.Assign GrantsView.loadingMarkup
                        :: View.Assign ""
                        :: map View.Append (GrantsView.displayPieces st')
            /\ View.held (View.innerHTML (View.page sc'))
               = "" :: GrantsView.displayPieces st'
            /\ forall url, ~ In (View.Assign (GrantsView.errorMarkup url)) writes))
  /\ (forall sc : View.Scene Publications.State,
         let st' := fieldsAfter (Publications.fetchPublications host) (View.fields sc) in
         let sc' := fieldsAfter (PublicationsView.init host) sc in
         fst (PublicationsView.init host sc) = Normal tt
         /\ View.fields sc' = st'
         /\ (View.present (View.page sc) = true ->
             exists writes,
               View.innerHTML (View.page sc')
               = (View.innerHTML (View.page sc) ++ writes)%list
               /\ writes = View.Assign PublicationsView.loadingMarkup
                           :: View.Assign ""
                           :: map View.Append (PublicationsView.displayPieces st')
               /\ View.held (View.innerHTML (View.page sc'))
                  = "" :: PublicationsView.displayPieces st'
               /\ forall url,
                   ~ In (View.Assign (PublicationsView.errorMarkup url)) writes)).
Proof.
  assert (N : forall (e : string) (ps : list string),
             ~ In (View.Assign e) (map View.Append ps)).
  { intros e ps I. apply in_map_iff in I. destruct I as [p [E _]]. discriminate. }
  split; intros sc st' sc'; subst sc'; unfold fieldsAfter.
  - rewrite init_run. cbn [fst snd]. fold (fieldsAfter (Grants.fetchResearchGrants host)).
    fold st'. split; [reflexivity|]. split; [now destruct (View.present (View.page sc))|].
    intros A. rewrite A. eexists. split; [reflexivity|]. split; [reflexivity|]. split.
    + unfold View.written. cbn [View.page View.innerHTML View.withFields].
      change (View.Assign GrantsView.loadingMarkup :: View.Assign ""
                :: map View.Append (GrantsView.displayPieces st'))
        with ([View.Assign GrantsView.loadingMarkup]
                ++ View.Assign "" :: map View.Append (GrantsView.displayPieces st'))%list.
      rewrite app_assoc. apply held_overwrite.
    + intros url [E | [E | I]]; [discriminate E | discriminate E | exact (N _ _ I)].
  - rewrite publications_init_run. cbn [fst snd].
    fold (fieldsAfter (Publications.fetchPublications host)).
    fold st'. split; [reflexivity|]. split; [now destruct (View.present (View.page sc))|].
    intros A. rewrite A. eexists. split; [reflexivity|]. split; [reflexivity|]. split.
    + unfold View.written. cbn [View.page View.innerHTML View.withFields].
      change (View.Assign PublicationsView.loadingMarkup :: View.Assign ""
                :: map View.Append (PublicationsView.displayPieces st'))
        with ([View.Assign PublicationsView.loadingMarkup]
                ++ View.Assign "" :: map View.Append (PublicationsView.displayPieces st'))%list.
      rewrite app_assoc. apply held_overwrite.
    + intros url [E | [E | I]]; [discriminate E | discriminate E | exact (N _ _ I)].
Qed.

(** Offline, in front of the modal: the text area ends up holding the
    display of the fallback. *)
Lemma init_outcome_witness :
  View.held (View.innerHTML
               (View.page (fieldsAfter (GrantsView.init Demo.offline) DemoView.staleScene)))
  = "" :: GrantsView.displayPieces
            (fieldsAfter (Grants.fetchResearchGrants Demo.offline)
                         (View.fields DemoView.staleScene)).
Proof.
  destruct (proj2 (proj2 (proj1 (init_outcome Demo.offline) DemoView.staleScene)) eq_refl)
    as [writes [_ [_ [H _]]]].
  exact H.
Defined.

(** X12.  The modal handler fetches once.  On an instance without records
    it runs [init]; once an [init] has completed the instance holds
    records, so the handler does nothing more, whatever the host would
    answer: only [refresh], which is [init], fetches again. *)
Theorem onShowModal_fetches_once (host host' : Browser.Host) :
  (forall sc : View.Scene Grants.State,
      (Grants.researchGrants (View.fields sc) = [] ->
       GrantsView.onShowModal host sc = GrantsView.init host sc)
      /\ (Grants.researchGrants (View.fields sc) <> [] ->
          GrantsView.onShowModal host sc = (Normal tt, sc))
      /\ GrantsView.onShowModal host' (fieldsAfter (GrantsView.init host) sc)
         = (Normal tt, fieldsAfter (GrantsView.init host) sc)
      /\ GrantsView.refresh host sc = GrantsView.init host sc)
  /\ (forall sc : View.Scene Publications.State,
         (Publications.publications (View.fields sc) = [] ->
          PublicationsView.onShowModal host sc = PublicationsView.init host sc)
         /\ (Publications.publications (View.fields sc) <> [] ->
             PublicationsView.onShowModal host sc = (Normal tt, sc))
         /\ PublicationsView.onShowModal host' (fieldsAfter (PublicationsView.init host) sc)
            = (Normal tt, fieldsAfter (PublicationsView.init host) sc)
         /\ PublicationsView.refresh host sc = PublicationsView.init host sc).
Proof.
  assert (G : forall h (sc : View.Scene Grants.State),
             Grants.researchGrants (View.fields sc) <> [] ->
             GrantsView.onShowModal h sc = (Normal tt, sc)).
  { intros h sc N. unfold GrantsView.onShowModal, bind. rewrite onFields_run.
    cbn [Grants.getResearchGrants fst snd].
    destruct (Grants.researchGrants (View.fields sc)) eqn:E; [congruence|].
    simpl. unfold ret, View.withFields. now destruct sc. }
  assert (Q : forall h (sc : View.Scene Publications.State),
             Publications.publications (View.fields sc) <> [] ->
             PublicationsView.onShowModal h sc = (Normal tt, sc)).
  { intros h sc N. unfold PublicationsView.onShowModal, bind. rewrite onFields_run.
    cbn [Publications.getPublications fst snd].
    destruct (Publications.publications (View.fields sc)) eqn:E; [congruence|].
    simpl. unfold ret, View.withFields. now destruct sc. }
  split; intros sc; repeat apply conj; auto.
  - intros E. unfold GrantsView.onShowModal, bind. rewrite onFields_run.
    cbn [Grants.getResearchGrants fst snd]. rewrite E. simpl.
    unfold View.withFields. now destruct sc.
  - apply G. unfold fieldsAfter at 1. rewrite init_run. cbn [snd].
    assert (F : View.fields
                  (if View.present (View.page sc)
                   then View.written
                          (View.withFields sc
                             (fieldsAfter (Grants.fetchResearchGrants host) (View.fields sc)))
                          (View.Assign GrantsView.loadingMarkup :: View.Assign ""
                             :: map View.Append
                                  (GrantsView.displayPieces
                                     (fieldsAfter (Grants.fetchResearchGrants host)
                                                  (View.fields sc))))
                   else View.withFields sc
                          (fieldsAfter (Grants.fetchResearchGrants host) (View.fields sc)))
                = fieldsAfter (Grants.fetchResearchGrants host) (View.fields sc))
      by now destruct (View.present (View.page sc)).
    cbv zeta. rewrite F. unfold fieldsAfter. rewrite fetchResearchGrants_run.
    cbn [snd Grants.researchGrants].
    destruct (Browser.fetchedDocument host _) as [doc|]; [|discriminate].
    unfold Grants.grantsOfDocument. destruct (Grants.liveGrants _); discriminate.
  - intros E. unfold PublicationsView.onShowModal, bind. rewrite onFields_run.
    cbn [Publications.getPublications fst snd]. rewrite E. simpl.
    unfold View.withFields. now destruct sc.
  - apply Q. unfold fieldsAfter at 1. rewrite publications_init_run. cbn [snd].
    assert (F : View.fields
                  (if View.present (View.page sc)
                   then View.written
                          (View.withFields sc
                             (fieldsAfter (Publications.fetchPublications host)
                                          (View.fields sc)))
                          (View.Assign PublicationsView.loadingMarkup :: View.Assign ""
                             :: map View.Append
                                  (PublicationsView.displayPieces
                                     (fieldsAfter (Publications.fetchPublications host)
                                                  (View.fields sc))))
                   else View.withFields sc
                          (fieldsAfter (Publications.fetchPublications host)
                                       (View.fields sc)))
                = fieldsAfter (Publications.fetchPublications host) (View.fields sc))
      by now destruct (View.present (View.page sc)).
    cbv zeta. rewrite F. unfold fieldsAfter. rewrite fetchPublications_run.
    cbn [snd Publications.publications].
    destruct (Browser.fetchedDocument host _) as [doc|]; [|discriminate].
    unfold Publications.publicationsOfDocument. cbv zeta.
    destruct (Nat.ltb_spec (List.length (Publications.livePublications
               (Publications.findPublicationElements doc Publications.selectors []))) 5)
      as [L|L]; [discriminate|].
    intros E. rewrite E in L. simpl in L. lia.
Qed.

(** A fresh widget opened offline loads the fallback; opened again with
    the network back, it is left alone. *)
Lemma onShowModal_fetches_once_witness :
  GrantsView.onShowModal Demo.offline DemoView.grantsScene
  = GrantsView.init Demo.offline DemoView.grantsScene
  /\ GrantsView.onShowModal (Demo.serving Demo.grantsPage) DemoView.staleScene
     = (Normal tt, DemoView.staleScene).
Proof.
  split.
  - apply (proj1 (proj1 (onShowModal_fetches_once Demo.offline Demo.offline)
                        DemoView.grantsScene)).
    reflexivity.
  - apply (proj1 (proj2 (proj1 (onShowModal_fetches_once (Demo.serving Demo.grantsPage)
                                                          Demo.offline)
                               DemoView.staleScene))).
    discriminate.
Defined.

(** X13.  A display rewrites the text area: in front of the modal, what
    the text area holds after [displayResearchGrants] or
    [displayPublications] is the emptying write followed by the pieces for
    the current fields, whatever it held before; displaying twice holds
    what displaying once holds. *)
Theorem display_overwrites :
  (forall sc : View.Scene Grants.State,
      View.present (View.page sc) = true ->
      let once := fieldsAfter GrantsView.displayResearchGrants sc in
      let twice := fieldsAfter GrantsView.displayResearchGrants once in
      View.held (View.innerHTML (View.page once))
      = "" :: GrantsView.displayPieces (View.fields sc)
      /\ View.held (View.innerHTML (View.page twice))
         = View.held (View.innerHTML (View.page once))
      /\ View.fields once = View.fields sc)
  /\ (forall sc : View.Scene Publications.State,
         View.present (View.page sc) = true ->
         let once := fieldsAfter PublicationsView.displayPublications sc in
         let twice := fieldsAfter PublicationsView.displayPublications once in
         View.held (View.innerHTML (View.page once))
         = "" :: PublicationsView.displayPieces (View.fields sc)
         /\ View.held (View.innerHTML (View.page twice))
            = View.held (View.innerHTML (View.page once))
         /\ View.fields once = View.fields sc).
Proof.
  split; intros sc A once twice; subst twice once; unfold fieldsAfter.
  - rewrite (displayResearchGrants_present _ A). cbn [snd].
    rewrite displayResearchGrants_present by exact A. cbn [snd].
    unfold View.written. cbn [View.page View.innerHTML View.fields].
    rewrite !held_overwrite. repeat split.
  - rewrite (displayPublications_present _ A). cbn [snd].
    rewrite displayPublications_present by exact A. cbn [snd].
    unfold View.written. cbn [View.page View.innerHTML View.fields].
    rewrite !held_overwrite. repeat split.
Qed.

(** A text area that held older markup holds the display alone. *)
Lemma display_overwrites_witness :
  View.held (View.innerHTML
               (View.page (fieldsAfter GrantsView.displayResearchGrants DemoView.staleScene)))
  = "" :: GrantsView.displayPieces (View.fields DemoView.staleScene).
Proof.
  exact (proj1 (proj1 display_overwrites DemoView.staleScene eq_refl)).
Defined.

(** X14.  The note under the publications says "cached" exactly when at
    most 10 records are shown.  After [init] in front of the modal the
    note is the last piece the text area holds; it says "cached" whenever
    the fallback is shown, and when it says "fetched" the records are live
    ones of the fetched document, more than 10 of them.  Live records from
    5 to 10 in number are announced as cached too. *)
Theorem publications_note_flag (host : Browser.Host)
        (sc : View.Scene Publications.State) :
  View.present (View.page sc) = true ->
  let sc' := fieldsAfter (PublicationsView.init host) sc in
  let pubs := Publications.publications (View.fields sc') in
  let cached := (List.length pubs <=? 10)%nat in
  last (View.held (View.innerHTML (View.page sc'))) ""
  = PublicationsView.sourceNoteMarkup cached
      (Publications.scholarUrl (View.fields sc))
  /\ (pubs = Publications.fallbackPublications -> cached = true)
  /\ (cached = false ->
      exists doc,
        Browser.fetchedDocument host
          (Publications.requestUrl host (View.fields sc)) = Some doc
        /\ pubs = Publications.livePublications
                    (Publications.findPublicationElements doc Publications.selectors [])
        /\ 10 < List.length pubs)
  /\ (forall doc,
         Browser.fetchedDocument host
           (Publications.requestUrl host (View.fields sc)) = Some doc ->
         let live := Publications.livePublications
                       (Publications.findPublicationElements
                          doc Publications.selectors []) in
         5 <= List.length live <= 10 ->
         pubs = live /\ cached = true).
Proof.
  intros A sc' pubs cached.
  assert (F : View.fields sc'
              = fieldsAfter (Publications.fetchPublications host) (View.fields sc)).
  { subst sc'. unfold fieldsAfter at 1. rewrite publications_init_run. cbn [snd].
    now rewrite A. }
  assert (H : View.held (View.innerHTML (View.page sc'))
              = "" :: PublicationsView.displayPieces (View.fields sc')).
  { rewrite F. subst sc'. unfold fieldsAfter at 1. rewrite publications_init_run.
    cbn [snd]. rewrite A. unfold View.written.
    cbn [View.page View.innerHTML View.withFields].
    change (View.Assign PublicationsView.loadingMarkup :: View.Assign ""
              :: map View.Append ?ps)
      with ([View.Assign PublicationsView.loadingMarkup]
              ++ View.Assign "" :: map View.Append ps)%list.
    rewrite app_assoc. apply held_overwrite. }
  assert (U : Publications.scholarUrl (View.fields sc')
              = Publications.scholarUrl (View.fields sc)).
  { rewrite F. unfold fieldsAfter. now rewrite fetchPublications_run. }
  assert (P : pubs = match Browser.fetchedDocument host
                             (Publications.requestUrl host (View.fields sc)) with
                     | Some doc => Publications.publicationsOfDocument doc
                     | None => Publications.fallbackPublications
                     end).
  { subst pubs. rewrite F. unfold fieldsAfter. now rewrite fetchPublications_run. }
  repeat apply conj.
  - rewrite H. unfold PublicationsView.displayPieces. fold pubs. fold cached. rewrite U.
    change ("" :: ([PublicationsView.headerMarkup]
                     ++ mapIndexed PublicationsView.publicationMarkup pubs 0
                     ++ [PublicationsView.sourceNoteMarkup cached
                           (Publications.scholarUrl (View.fields sc))]))%list
      with (("" :: PublicationsView.headerMarkup
                :: mapIndexed PublicationsView.publicationMarkup pubs 0)
              ++ [PublicationsView.sourceNoteMarkup cached
                    (Publications.scholarUrl (View.fields sc))])%list.
    apply last_last.
  - intros E. subst cached. now rewrite E.
  - intros C. subst cached. apply Nat.leb_gt in C.
    destruct (Browser.fetchedDocument host _) as [doc|].
    + exists doc. split; [reflexivity|].
      destruct (publicationsOfDocument_cases doc) as [E | E]; rewrite E in P.
      * rewrite P in C. simpl in C. lia.
      * now split.
    + rewrite P in C. simpl in C. lia.
  - intros doc E live L. rewrite E in P. subst cached.
    unfold Publications.publicationsOfDocument in P. fold live in P. cbv zeta in P.
    destruct (Nat.ltb_spec (List.length live) 5); [lia|].
    rewrite P. split; [reflexivity | apply Nat.leb_le; lia].
Qed.

(** Six live rows are shown under the "cached" note. *)
Lemma publications_note_flag_witness :
  let sc' := fieldsAfter (PublicationsView.init (Demo.serving (Demo.scholarPage 6)))
                         DemoView.publicationsScene in
  Publications.publications (View.fields sc')
  = Publications.livePublications (repeat Demo.row1 6)
  /\ last (View.held (View.innerHTML (View.page sc'))) ""
     = PublicationsView.sourceNoteMarkup true
         (Publications.scholarUrl Publications.constructor).
Proof.
  split.
  - refine (proj1 (proj2 (proj2 (proj2
              (publications_note_flag (Demo.serving (Demo.scholarPage 6))
                 DemoView.publicationsScene eq_refl)))
              (Demo.scholarPage 6) eq_refl _)).
    vm_compute. lia.
  - exact (proj1 (publications_note_flag (Demo.serving (Demo.scholarPage 6))
                    DemoView.publicationsScene eq_refl)).
Defined.
